(** * LuaWrapper: a shallow embedding of [luawrapper.hpp]

    The header wraps the Lua 5.1 C API behind a singleton class.  Every
    member function is a short sequence of API calls on [m_luastate], so
    the embedding has two layers:

    - a model of the part of the Lua 5.1 C API the header calls (values,
      the operand stack, tables with their metatables, the registry, the
      reference mechanism of lauxlib and protected calls), written after
      the macros of [lua.h] / [lauxlib.h] and the reference manual;
    - the member functions of [LuaWrapper], translated line by line on
      top of that API.

    Running Lua code, loading a file, the length operator on the registry
    and the conversions between numbers and their text are the engine's
    business: they are fields of the class [LuaEngine] and every theorem
    holds for an arbitrary engine.

    Conventions.  The operand stack is a list whose head is the stack top
    (index [-1]); it is unbounded and allocation never fails.  The host
    calls the wrapper directly, with no Lua function running.  A [char*]
    argument is the text of a valid C string.  Pointers are integers,
    [NULL] is [0].  Reading a stack index that holds no value yields "no
    value" ([LUA_TNONE]), as [lua_type] reports for an empty position;
    the pseudo-indices are reached only through [lua_getglobal] and the
    reference functions, which are given their table directly.  [printf]
    appends to a console log, and prints a null [%s] argument as
    [(null)]. *)

From Stdlib Require Import ZArith List String Ascii Bool Lia DecimalString.
From Stdlib Require Import Floats.SpecFloat.
From stdpp Require Import base gmap strings list.

Local Open Scope string_scope.
Local Open Scope Z_scope.

(** ** Numbers: [lua_Number] is a C [double] *)

Definition lua_Number : Type := spec_float.

Definition prec : Z := 53.
Definition emax : Z := 1024.

Definition luai_numeq (a b : lua_Number) : bool := SFeqb a b.
Definition luai_numisnan (a : lua_Number) : bool := negb (luai_numeq a a).

(** [cast_num]: the conversion [(lua_Number)n] of an integer, rounding to
    nearest even (exact for every [int]). *)
Definition cast_num (n : Z) : lua_Number := binary_normalize prec emax n 0 false.

(** The canonical binary64 form of a positive integer below 2^53: the
    mantissa is shifted up to 53 bits. *)
Definition canon (p : positive) : positive * Z :=
  let d := Z.pos (digits2_pos p) in
  match d - 53 with
  | Zneg q => (Pos.iter xO p q, d - 53)
  | _ => (p, 0)
  end.

(** [lua_number2integer]: the C conversion of a [double] to an integer
    type, truncating toward zero (some builds of Lua round to nearest
    instead; the two agree on integral values, the only ones the theorems
    convert).  C leaves the conversion of infinities and NaN undefined;
    they are mapped to 0 here. *)
Definition lua_number2integer (d : lua_Number) : Z :=
  match d with
  | S754_finite s m e =>
      let a := if 0 <=? e then Z.pos m * 2 ^ e else Z.pos m / 2 ^ (- e) in
      if s then - a else a
  | _ => 0
  end.

Definition INT_MIN : Z := - 2 ^ 31.
Definition INT_MAX : Z := 2 ^ 31 - 1.

(** The narrowing conversion to a 32-bit [int] wraps around. *)
Definition to_int (z : Z) : Z := (z + 2 ^ 31) mod 2 ^ 32 - 2 ^ 31.

Definition int_range (n : Z) : Prop := INT_MIN <= n <= INT_MAX.

(** ** Values *)

Inductive TValue : Type :=
  | VNil
  | VBoolean (b : bool)
  | VLightUserdata (p : Z)
  | VNumber (n : lua_Number)
  | VString (s : string)
  | VTable (a : positive)
  | VFunction (f : positive)
  | VUserdata (p : Z)
  | VThread (a : positive).

Definition LUA_TNONE : Z := -1.
Definition LUA_TNIL : Z := 0.
Definition LUA_TBOOLEAN : Z := 1.
Definition LUA_TLIGHTUSERDATA : Z := 2.
Definition LUA_TNUMBER : Z := 3.
Definition LUA_TSTRING : Z := 4.
Definition LUA_TTABLE : Z := 5.
Definition LUA_TFUNCTION : Z := 6.
Definition LUA_TUSERDATA : Z := 7.
Definition LUA_TTHREAD : Z := 8.

(** The enumeration [LuaWrapper::luaType]. *)
Inductive luaType : Type :=
  | TNIL | TBOOL | TLUSERDATA | TNUMBER | TSTRING
  | TTABLE | TFUNCTION | TUSERDATA | TTHREAD.

Definition luaType_value (t : luaType) : Z :=
  match t with
  | TNIL => LUA_TNIL
  | TBOOL => LUA_TBOOLEAN
  | TLUSERDATA => LUA_TLIGHTUSERDATA
  | TNUMBER => LUA_TNUMBER
  | TSTRING => LUA_TSTRING
  | TTABLE => LUA_TTABLE
  | TFUNCTION => LUA_TFUNCTION
  | TUSERDATA => LUA_TUSERDATA
  | TTHREAD => LUA_TTHREAD
  end.

Definition ttype (v : TValue) : luaType :=
  match v with
  | VNil => TNIL
  | VBoolean _ => TBOOL
  | VLightUserdata _ => TLUSERDATA
  | VNumber _ => TNUMBER
  | VString _ => TSTRING
  | VTable _ => TTABLE
  | VFunction _ => TFUNCTION
  | VUserdata _ => TUSERDATA
  | VThread _ => TTHREAD
  end.

Definition ttisnil (v : TValue) : bool :=
  match v with VNil => true | _ => false end.

(** [luaT_typenames] *)
Definition luaT_typename (v : option TValue) : string :=
  match v with
  | None => "no value"
  | Some VNil => "nil"
  | Some (VBoolean _) => "boolean"
  | Some (VLightUserdata _) => "userdata"
  | Some (VNumber _) => "number"
  | Some (VString _) => "string"
  | Some (VTable _) => "table"
  | Some (VFunction _) => "function"
  | Some (VUserdata _) => "userdata"
  | Some (VThread _) => "thread"
  end.

(** [luaO_rawequalObj]: primitive equality, the one table keys use.
    Strings are interned, so identity of strings is equality of text. *)
Definition luaO_rawequalObj (a b : TValue) : bool :=
  match a, b with
  | VNil, VNil => true
  | VBoolean x, VBoolean y => Bool.eqb x y
  | VLightUserdata p, VLightUserdata q => p =? q
  | VNumber x, VNumber y => luai_numeq x y
  | VString s, VString t => String.eqb s t
  | VTable x, VTable y => Pos.eqb x y
  | VFunction x, VFunction y => Pos.eqb x y
  | VUserdata p, VUserdata q => p =? q
  | VThread x, VThread y => Pos.eqb x y
  | _, _ => false
  end.

(** ** Tables

    A table is its list of entries with non-nil values, looked up with
    primitive equality, and an optional metatable. *)

Record Table : Type := mkTable {
  node : list (TValue * TValue);
  metatable : option positive
}.

Fixpoint luaH_get (n : list (TValue * TValue)) (key : TValue) : TValue :=
  match n with
  | [] => VNil
  | (k, v) :: r => if luaO_rawequalObj k key then v else luaH_get r key
  end.

Definition node_remove (n : list (TValue * TValue)) (key : TValue)
  : list (TValue * TValue) :=
  filter (fun kv => negb (luaO_rawequalObj (fst kv) key) = true) n.

(** Assignment to a slot: storing nil erases the entry. *)
Definition node_store (n : list (TValue * TValue)) (key v : TValue)
  : list (TValue * TValue) :=
  match v with
  | VNil => node_remove n key
  | _ => (key, v) :: node_remove n key
  end.

Definition luaH_getnum (n : list (TValue * TValue)) (i : Z) : TValue :=
  luaH_get n (VNumber (cast_num i)).

Definition luaH_getstr (n : list (TValue * TValue)) (s : string) : TValue :=
  luaH_get n (VString s).

(** ** The state of the engine *)

Record global_State : Type := mkGlobal {
  tables : gmap positive Table;   (* the table objects of the heap *)
  udata_mt : gmap Z positive;     (* metatable of each full userdata *)
  mt : gmap Z positive;           (* G(L)->mt: metatables of the basic types *)
  l_registry : positive;          (* the registry table *)
  l_gt : positive                 (* the table of globals *)
}.

Record lua_State : Type := mkLua {
  stack : list TValue;            (* head = top *)
  l_G : global_State
}.

Definition set_stack (s : list TValue) (L : lua_State) : lua_State :=
  mkLua s (l_G L).

Definition set_tables (t : gmap positive Table) (g : global_State) : global_State :=
  mkGlobal t (udata_mt g) (mt g) (l_registry g) (l_gt g).

(** ** Outcomes

    An operation returns ([Ok]), raises a Lua error ([Raise], the
    [longjmp] of [lua_error]), breaks a precondition of the C API
    ([Undefined]) or never returns ([Diverge]). *)

Inductive result (S A : Type) : Type :=
  | Ok (a : A) (s : S)
  | Raise (e : TValue) (s : S)
  | Undefined
  | Diverge.

Arguments Ok {S A} a s.
Arguments Raise {S A} e s.
Arguments Undefined {S A}.
Arguments Diverge {S A}.

Definition M (S A : Type) : Type := S -> result S A.

Definition ret {S A} (a : A) : M S A := fun s => Ok a s.

Definition bind {S A B} (m : M S A) (k : A -> M S B) : M S B :=
  fun s =>
    match m s with
    | Ok a s' => k a s'
    | Raise e s' => Raise e s'
    | Undefined => Undefined
    | Diverge => Diverge
    end.

Declare Scope lua_scope.
Delimit Scope lua_scope with lua.
Notation "x <- m ;; k" := (bind m (fun x => k))
  (at level 100, m at next level, right associativity) : lua_scope.
Notation "m ;; k" := (bind m (fun _ => k))
  (at level 100, right associativity) : lua_scope.
Local Open Scope lua_scope.

Definition get {S} : M S S := fun s => Ok s s.
Definition put {S} (s : S) : M S unit := fun _ => Ok tt s.
Definition modify {S} (f : S -> S) : M S unit := fun s => Ok tt (f s).
Definition undefined {S A} : M S A := fun _ => Undefined.

(** Run an operation of an inner state inside an outer one. *)
Definition zoom {S T A} (proj : T -> S) (upd : S -> T -> T) (m : M S A) : M T A :=
  fun t =>
    match m (proj t) with
    | Ok a s' => Ok a (upd s' t)
    | Raise e s' => Raise e (upd s' t)
    | Undefined => Undefined
    | Diverge => Diverge
    end.

Definition withG {A} (m : M global_State A) : M lua_State A :=
  zoom l_G (fun g L => mkLua (stack L) g) m.

(** ** The engine *)

Inductive err_status : Type :=
  | LUA_ERRRUN | LUA_ERRSYNTAX | LUA_ERRMEM | LUA_ERRERR | LUA_ERRFILE.

Definition status_code (e : err_status) : Z :=
  match e with
  | LUA_ERRRUN => 2
  | LUA_ERRSYNTAX => 3
  | LUA_ERRMEM => 4
  | LUA_ERRERR => 5
  | LUA_ERRFILE => 6
  end.

Inductive call_outcome : Type :=
  | Returned (results : list TValue) (g : global_State)
  | Threw (status : err_status) (e : TValue) (g : global_State)
  | NoReturn.

Class LuaEngine : Type := {
  (* run the function [f] on its arguments: the results in order, or the
     error value it raised; a function sees the heap, not its caller's stack *)
  luaD_run : positive -> list TValue -> global_State -> call_outcome;
  (* read and compile a file: the chunk as a function, or a message *)
  luaL_loadfile_chunk : string -> global_State -> (positive * global_State) + (err_status * string);
  (* the border [luaH_getn] reports for a table *)
  luaH_getn : Table -> nat;
  (* text to number and back ([strtod], [sprintf "%.14g"]) *)
  luaO_str2d : string -> option lua_Number;
  lua_number2str : lua_Number -> string
}.

(** ** The Lua 5.1 C API, as far as the wrapper calls it *)

Section LuaAPI.
Context `{LuaEngine}.

Definition LUA_MULTRET : Z := -1.
Definition LUA_REFNIL : Z := -1.
Definition LUA_NOREF : Z := -2.
Definition FREELIST_REF : Z := 0.
Definition MAXTAGLOOP : nat := 100.

(** *** Reading the stack *)

(** The position, counted from the top, that an index designates:
    negative indices count from the top, positive ones from the bottom. *)
Definition index2adr (st : list TValue) (idx : Z) : option nat :=
  if idx <? 0 then Some (Z.to_nat (- idx - 1))
  else if (0 <? idx) && (idx <=? Z.of_nat (length st))
       then Some (length st - Z.to_nat idx)%nat
       else None.

Definition index2value (L : lua_State) (idx : Z) : option TValue :=
  match index2adr (stack L) idx with
  | Some i => stack L !! i
  | None => None
  end.

Definition lua_gettop (L : lua_State) : Z := Z.of_nat (length (stack L)).

Definition lua_type (L : lua_State) (idx : Z) : Z :=
  match index2value L idx with
  | None => LUA_TNONE
  | Some v => luaType_value (ttype v)
  end.

Definition lua_isnil (L : lua_State) (idx : Z) : bool := lua_type L idx =? LUA_TNIL.
Definition lua_istable (L : lua_State) (idx : Z) : bool := lua_type L idx =? LUA_TTABLE.
Definition lua_isfunction (L : lua_State) (idx : Z) : bool := lua_type L idx =? LUA_TFUNCTION.

(** [luaV_tonumber]: a number, or a string that reads as one. *)
Definition luaV_tonumber (v : option TValue) : option lua_Number :=
  match v with
  | Some (VNumber n) => Some n
  | Some (VString s) => luaO_str2d s
  | _ => None
  end.

Definition lua_isnumber (L : lua_State) (idx : Z) : bool :=
  match luaV_tonumber (index2value L idx) with
  | Some _ => true
  | None => false
  end.

Definition lua_isstring (L : lua_State) (idx : Z) : bool :=
  match index2value L idx with
  | Some (VString _) | Some (VNumber _) => true
  | _ => false
  end.

Definition lua_isuserdata (L : lua_State) (idx : Z) : bool :=
  match index2value L idx with
  | Some (VUserdata _) | Some (VLightUserdata _) => true
  | _ => false
  end.

Definition lua_tonumber (L : lua_State) (idx : Z) : lua_Number :=
  match luaV_tonumber (index2value L idx) with
  | Some n => n
  | None => S754_zero false
  end.

Definition lua_tointeger (L : lua_State) (idx : Z) : Z :=
  match luaV_tonumber (index2value L idx) with
  | Some n => lua_number2integer n
  | None => 0
  end.

Definition lua_touserdata (L : lua_State) (idx : Z) : Z :=
  match index2value L idx with
  | Some (VUserdata p) | Some (VLightUserdata p) => p
  | _ => 0
  end.

(** [lua_tolstring] (the macro [lua_tostring]): a number is converted to
    a string in its stack slot; [None] is the null pointer. *)
Definition lua_tostring (idx : Z) : M lua_State (option string) :=
  fun L =>
    match index2adr (stack L) idx with
    | Some i =>
        match stack L !! i with
        | Some (VString s) => Ok (Some s) L
        | Some (VNumber n) =>
            let s := lua_number2str n in
            Ok (Some s) (set_stack (<[i := VString s]> (stack L)) L)
        | _ => Ok None L
        end
    | None => Ok None L
    end.

(** What [lua_tostring] leaves in a slot, what it returns, and its effect
    on the slot at a position of the stack. *)
Definition tostring_value (v : TValue) : TValue :=
  match v with
  | VNumber n => VString (lua_number2str n)
  | _ => v
  end.

Definition tostring_text (v : TValue) : option string :=
  match v with
  | VString s => Some s
  | VNumber n => Some (lua_number2str n)
  | _ => None
  end.

Definition tostring_slot (i : nat) (st : list TValue) : list TValue :=
  match st !! i with
  | Some (VNumber n) => <[i := VString (lua_number2str n)]> st
  | _ => st
  end.

(** *** Moving the top *)

Definition lua_settop (idx : Z) : M lua_State unit :=
  fun L =>
    let n := length (stack L) in
    if 0 <=? idx then
      let k := Z.to_nat idx in
      Ok tt (set_stack (replicate (k - n) VNil ++ drop (n - k) (stack L)) L)
    else if - (idx + 1) <=? Z.of_nat n then
      Ok tt (set_stack (drop (Z.to_nat (- (idx + 1))) (stack L)) L)
    else Undefined.

(** [#define lua_pop(L,n) lua_settop(L, -(n)-1)] *)
Definition lua_pop (n : Z) : M lua_State unit := lua_settop (- n - 1).

Definition lua_push (v : TValue) : M lua_State unit :=
  modify (fun L => set_stack (v :: stack L) L).

Definition lua_pushnumber (n : lua_Number) : M lua_State unit := lua_push (VNumber n).
Definition lua_pushinteger (n : Z) : M lua_State unit := lua_push (VNumber (cast_num n)).
Definition lua_pushstring (s : string) : M lua_State unit := lua_push (VString s).
Definition lua_pushnil : M lua_State unit := lua_push VNil.
Definition lua_pushlightuserdata (p : Z) : M lua_State unit := lua_push (VLightUserdata p).

(** [luaL_error]: the message is pushed and raised; called from the host
    there is no Lua frame, so [luaL_where] adds no position. *)
Definition luaL_error {A} (msg : string) : M lua_State A :=
  fun L => Raise (VString msg) L.

(** *** Metatables and the index events *)

Definition luaT_gettm (g : global_State) (m : option positive) (event : string) : TValue :=
  match m with
  | None => VNil
  | Some a =>
      match tables g !! a with
      | Some h => luaH_getstr (node h) event
      | None => VNil
      end
  end.

Definition getmetatable (g : global_State) (o : TValue) : option positive :=
  match o with
  | VTable a => match tables g !! a with Some h => metatable h | None => None end
  | VUserdata p => udata_mt g !! p
  | _ => mt g !! luaType_value (ttype o)
  end.

Definition luaT_gettmbyobj (g : global_State) (o : TValue) (event : string) : TValue :=
  luaT_gettm g (getmetatable g o) event.

Definition luaG_typeerror {A} (o : TValue) (op : string) : M global_State A :=
  fun g => Raise (VString ("attempt to " ++ op ++ " a " ++ luaT_typename (Some o) ++ " value")) g.

(** Calling a metamethod for one result ([callTMres]) or none ([callTM]). *)
Definition callTMres (f : positive) (args : list TValue) : M global_State TValue :=
  fun g =>
    match luaD_run f args g with
    | Returned rets g' => Ok (hd VNil rets) g'
    | Threw _ e g' => Raise e g'
    | NoReturn => Diverge
    end.

Definition callTM (f : positive) (args : list TValue) : M global_State unit :=
  fun g =>
    match luaD_run f args g with
    | Returned _ g' => Ok tt g'
    | Threw _ e g' => Raise e g'
    | NoReturn => Diverge
    end.

Fixpoint luaV_gettable_loop (loop : nat) (t key : TValue) : M global_State TValue :=
  fun g =>
    match loop with
    | O => Raise (VString "loop in gettable") g
    | S loop' =>
        let try_tm (tm : TValue) :=
          match tm with
          | VFunction f => callTMres f [t; key] g
          | _ => luaV_gettable_loop loop' tm key g
          end in
        match t with
        | VTable a =>
            match tables g !! a with
            | None => Undefined
            | Some h =>
                let res := luaH_get (node h) key in
                if negb (ttisnil res) then Ok res g
                else match luaT_gettm g (metatable h) "__index" with
                     | VNil => Ok res g
                     | tm => try_tm tm
                     end
            end
        | _ =>
            match luaT_gettmbyobj g t "__index" with
            | VNil => luaG_typeerror t "index" g
            | tm => try_tm tm
            end
        end
    end.

Definition luaV_gettable (t key : TValue) : M global_State TValue :=
  luaV_gettable_loop MAXTAGLOOP t key.

Definition table_store (a : positive) (h : Table) (key val : TValue) (g : global_State)
  : global_State :=
  set_tables (<[a := mkTable (node_store (node h) key val) (metatable h)]> (tables g)) g.

Definition key_isnan (key : TValue) : bool :=
  match key with
  | VNumber n => luai_numisnan n
  | _ => false
  end.

Fixpoint luaV_settable_loop (loop : nat) (t key val : TValue) : M global_State unit :=
  fun g =>
    match loop with
    | O => Raise (VString "loop in settable") g
    | S loop' =>
        let try_tm (tm : TValue) :=
          match tm with
          | VFunction f => callTM f [t; key; val] g
          | _ => luaV_settable_loop loop' tm key val g
          end in
        match t with
        | VTable a =>
            match tables g !! a with
            | None => Undefined
            | Some h =>
                if negb (ttisnil (luaH_get (node h) key)) then
                  Ok tt (table_store a h key val g)
                else if ttisnil key then Raise (VString "table index is nil") g
                else if key_isnan key then Raise (VString "table index is NaN") g
                else match luaT_gettm g (metatable h) "__newindex" with
                     | VNil => Ok tt (table_store a h key val g)
                     | tm => try_tm tm
                     end
            end
        | _ =>
            match luaT_gettmbyobj g t "__newindex" with
            | VNil => luaG_typeerror t "index" g
            | tm => try_tm tm
            end
        end
    end.

Definition luaV_settable (t key val : TValue) : M global_State unit :=
  luaV_settable_loop MAXTAGLOOP t key val.

(** *** Tables through the stack *)

(** [lua_newtable]: a new empty table, at an unused address, is pushed. *)
Definition lua_newtable : M lua_State unit :=
  fun L =>
    let g := l_G L in
    let a := fresh (dom (tables g)) in
    Ok tt (mkLua (VTable a :: stack L)
                 (set_tables (<[a := mkTable [] None]> (tables g)) g)).

(** [lua_gettable]: the key at the top is replaced by [t[key]], where
    [t] is the value at [idx]; the index event may run a metamethod. *)
Definition lua_gettable (idx : Z) : M lua_State unit :=
  fun L =>
    let t := default VNil (index2value L idx) in
    match stack L with
    | key :: rest =>
        match luaV_gettable t key (l_G L) with
        | Ok v g => Ok tt (mkLua (v :: rest) g)
        | Raise e g => Raise e (mkLua (stack L) g)
        | Undefined => Undefined
        | Diverge => Diverge
        end
    | [] => Undefined
    end.

(** [lua_settable]: [t[key] = value] with the value at the top and the
    key below it; both are popped. *)
Definition lua_settable (idx : Z) : M lua_State unit :=
  fun L =>
    let t := default VNil (index2value L idx) in
    match stack L with
    | val :: key :: rest =>
        match luaV_settable t key val (l_G L) with
        | Ok _ g => Ok tt (mkLua rest g)
        | Raise e g => Raise e (mkLua (stack L) g)
        | Undefined => Undefined
        | Diverge => Diverge
        end
    | _ => Undefined
    end.

(** [#define lua_getglobal(L,s) lua_getfield(L, LUA_GLOBALSINDEX, (s))] *)
Definition lua_getglobal (name : string) : M lua_State unit :=
  fun L =>
    match luaV_gettable (VTable (l_gt (l_G L))) (VString name) (l_G L) with
    | Ok v g => Ok tt (mkLua (v :: stack L) g)
    | Raise e g => Raise e (mkLua (stack L) g)
    | Undefined => Undefined
    | Diverge => Diverge
    end.

(** [#define lua_setglobal(L,s) lua_setfield(L, LUA_GLOBALSINDEX, (s))]:
    the value at the top is assigned to the global and popped. *)
Definition lua_setglobal (name : string) : M lua_State unit :=
  fun L =>
    match stack L with
    | v :: rest =>
        match luaV_settable (VTable (l_gt (l_G L))) (VString name) v (l_G L) with
        | Ok _ g => Ok tt (mkLua rest g)
        | Raise e g => Raise e (mkLua (stack L) g)
        | Undefined => Undefined
        | Diverge => Diverge
        end
    | [] => Undefined
    end.

(** [lua_pushcfunction]: a C function is pushed as the function value
    the engine runs at that address (closures of one C function are not
    told apart). *)
Definition lua_pushcfunction (f : positive) : M lua_State unit := lua_push (VFunction f).

(** [#define lua_register(L,n,f) (lua_pushcfunction(L, (f)), lua_setglobal(L, (n)))] *)
Definition lua_register (n : string) (f : positive) : M lua_State unit :=
  lua_pushcfunction f ;; lua_setglobal n.

(** Raw access by integer key to the table at address [t]. *)
Definition lua_rawgeti (t : positive) (n : Z) : M lua_State unit :=
  fun L =>
    match tables (l_G L) !! t with
    | Some h => Ok tt (set_stack (luaH_getnum (node h) n :: stack L) L)
    | None => Undefined
    end.

Definition lua_rawseti (t : positive) (n : Z) : M lua_State unit :=
  fun L =>
    match stack L, tables (l_G L) !! t with
    | v :: rest, Some h =>
        Ok tt (mkLua rest (table_store t h (VNumber (cast_num n)) v (l_G L)))
    | _, _ => Undefined
    end.

Definition lua_objlen (t : positive) : M lua_State Z :=
  fun L =>
    match tables (l_G L) !! t with
    | Some h => Ok (Z.of_nat (luaH_getn h)) L
    | None => Undefined
    end.

(** *** References (lauxlib) *)

Definition luaL_ref (t : positive) : M lua_State Z :=
  fun L =>
    if lua_isnil L (-1) then
      (lua_pop 1 ;;                       (* remove from stack *)
       ret LUA_REFNIL) L                  (* nil has a unique fixed reference *)
    else
      (lua_rawgeti t FREELIST_REF ;;      (* get first free element *)
       L1 <- get ;;
       let ref := to_int (lua_tointeger L1 (-1)) in
       lua_pop 1 ;;
       ref' <- (if negb (ref =? 0) then   (* any free element? *)
                  lua_rawgeti t ref ;;    (* remove it from list *)
                  lua_rawseti t FREELIST_REF ;;
                  ret ref
                else                      (* no free elements *)
                  n <- lua_objlen t ;;
                  ret (to_int n + 1)) ;;  (* create new reference *)
       lua_rawseti t ref' ;;
       ret ref') L.

Definition luaL_unref (t : positive) (ref : Z) : M lua_State unit :=
  if 0 <=? ref then
    lua_rawgeti t FREELIST_REF ;;
    lua_rawseti t ref ;;                  (* t[ref] = t[FREELIST_REF] *)
    lua_pushinteger ref ;;
    lua_rawseti t FREELIST_REF            (* t[FREELIST_REF] = ref *)
  else ret tt.

(** The first free reference of the table [h], as [luaL_ref] reads it
    from the slot [FREELIST_REF]. *)
Definition freelist_head (h : Table) : Z :=
  to_int match luaV_tonumber (Some (luaH_getnum (node h) FREELIST_REF)) with
         | Some n => lua_number2integer n
         | None => 0
         end.

(** What [luaL_ref] leaves in the slot [FREELIST_REF] when it stores a
    value that is not nil: with a free reference [ref] it unlinks it,
    [t[FREELIST_REF] = t[ref]]; without one the slot is not written. *)
Definition freelist_next (h : Table) : TValue :=
  if negb (freelist_head h =? 0) then luaH_getnum (node h) (freelist_head h)
  else luaH_getnum (node h) FREELIST_REF.

(** *** Protected calls *)

(** Calling a value: a function runs; another value runs its [__call]
    metamethod with itself as first argument, or is an error. *)
Definition luaD_call (g : global_State) (func : TValue) (args : list TValue) : call_outcome :=
  match func with
  | VFunction f => luaD_run f args g
  | _ =>
      match luaT_gettmbyobj g func "__call" with
      | VFunction f => luaD_run f (func :: args) g
      | _ => Threw LUA_ERRRUN
               (VString ("attempt to call a " ++ luaT_typename (Some func) ++ " value")) g
      end
  end.

(** The results of a call adjusted to [n] values. *)
Definition adjust_results (n : nat) (rets : list TValue) : list TValue :=
  take n (rets ++ replicate n VNil).

(** [lua_pcall(L, nargs, nresults, 0)]: the function and its arguments
    are replaced by the results, or by the error value.  Fewer than
    [nargs + 1] values on the stack, or a negative result count other
    than [LUA_MULTRET], is outside the contract of the API. *)
Definition lua_pcall (nargs nresults : Z) : M lua_State Z :=
  fun L =>
    if (nargs <? 0) || (Z.of_nat (length (stack L)) <? nargs + 1) then Undefined
    else
      let n := Z.to_nat nargs in
      let args := rev (take n (stack L)) in
      match drop n (stack L) with
      | func :: base =>
          match luaD_call (l_G L) func args with
          | Returned rets g =>
              if nresults =? LUA_MULTRET then Ok 0 (mkLua (rev rets ++ base) g)
              else if nresults <? 0 then Undefined
              else Ok 0 (mkLua (rev (adjust_results (Z.to_nat nresults) rets) ++ base) g)
          | Threw st e g => Ok (status_code st) (mkLua (e :: base) g)
          | NoReturn => Diverge
          end
      | [] => Undefined
      end.

Definition luaL_loadfile (filename : string) : M lua_State Z :=
  fun L =>
    match luaL_loadfile_chunk filename (l_G L) with
    | inl (f, g) => Ok 0 (mkLua (VFunction f :: stack L) g)
    | inr (st, msg) => Ok (status_code st) (set_stack (VString msg :: stack L) L)
    end.

(** [#define luaL_dofile(L, fn)
       (luaL_loadfile(L, fn) || lua_pcall(L, 0, LUA_MULTRET, 0))] *)
Definition luaL_dofile (fn : string) : M lua_State Z :=
  r <- luaL_loadfile fn ;;
  if negb (r =? 0) then ret 1
  else
    r' <- lua_pcall 0 LUA_MULTRET ;;
    ret (if negb (r' =? 0) then 1 else 0).

End LuaAPI.

(** ** The class [LuaWrapper] *)

Record LuaWrapper : Type := mkWrapper {
  m_luastate : lua_State;
  m_status : option string;       (* char*, null until a file is opened *)
  console : list string           (* the calls of printf, newest first *)
}.

Definition set_luastate (L : lua_State) (w : LuaWrapper) : LuaWrapper :=
  mkWrapper L (m_status w) (console w).

Definition set_status (s : string) (w : LuaWrapper) : LuaWrapper :=
  mkWrapper (m_luastate w) (Some s) (console w).

Definition withL {A} (m : M lua_State A) : M LuaWrapper A :=
  zoom m_luastate set_luastate m.

Definition gets {S A} (f : S -> A) : M S A := fun s => Ok (f s) s.

Definition nl : string := String "010"%char EmptyString.

(** A [%s] argument of [printf]. *)
Definition show (s : option string) : string :=
  match s with
  | Some t => t
  | None => "(null)"
  end.

(** A [%i] argument of [printf]. *)
Definition show_int (i : Z) : string := NilZero.string_of_int (Z.to_int i).

Definition printf (text : string) : M LuaWrapper unit :=
  modify (fun w => mkWrapper (m_luastate w) (m_status w) (text :: console w)).

Definition strcmp0 (a b : string) : bool := String.eqb a b.   (* !strcmp(a, b) *)

Section Wrapper.
Context `{LuaEngine}.

(** *** Stack manipulation functions *)

Definition pushNumber (n : lua_Number) : M LuaWrapper unit := withL (lua_pushnumber n).
Definition pushInt (n : Z) : M LuaWrapper unit := withL (lua_pushinteger n).
Definition pushString (s : string) : M LuaWrapper unit := withL (lua_pushstring s).
Definition pushNil : M LuaWrapper unit := withL lua_pushnil.
Definition pushLUserdata (p : Z) : M LuaWrapper unit := withL (lua_pushlightuserdata p).

(** [void pop(){ lua_pop( m_luastate, -1 );}] *)
Definition pop : M LuaWrapper unit := withL (lua_pop (-1)).

Definition number_mismatch : string :=
  "ERROR: C-Lua stack value type mismatch (should be a number)!".
Definition string_mismatch : string :=
  "ERROR: C-Lua stack value type mismatch (should be a string)!".
Definition userdata_mismatch : string :=
  "ERROR: C-Lua stack value type mismatch (should be userdata)!".

Definition popInt : M LuaWrapper Z :=
  withL (
    L <- get ;;
    (if negb (lua_isnumber L (-1)) then luaL_error number_mismatch else ret tt) ;;
    n <- gets (fun L => to_int (lua_tointeger L (-1))) ;;
    lua_pop 1 ;;
    ret n).

Definition popNumber : M LuaWrapper lua_Number :=
  withL (
    L <- get ;;
    (if negb (lua_isnumber L (-1)) then luaL_error number_mismatch else ret tt) ;;
    num <- gets (fun L => lua_tonumber L (-1)) ;;
    lua_pop 1 ;;
    ret num).

Definition popString : M LuaWrapper (option string) :=
  withL (
    L <- get ;;
    (if negb (lua_isstring L (-1)) then luaL_error string_mismatch else ret tt) ;;
    string <- lua_tostring (-1) ;;
    lua_pop 1 ;;
    ret string).

Definition popUserdata : M LuaWrapper Z :=
  withL (
    L <- get ;;
    (if negb (lua_isuserdata L (-1)) then luaL_error userdata_mismatch else ret tt) ;;
    vp <- gets (fun L => lua_touserdata L (-1)) ;;
    lua_pop 1 ;;
    ret vp).

Definition moveToTop (index : Z) : M LuaWrapper unit := withL (lua_settop index).

Definition isNil (index : Z) : M LuaWrapper Z :=
  gets (fun w => if lua_isnil (m_luastate w) index then 1 else 0).

(** *** Tables *)

Definition createTable : M LuaWrapper unit := withL lua_newtable.

Definition get_without_table : string :=
  "ERROR: Trying to get table value without table at top of stack!".
Definition set_without_table : string :=
  "ERROR: Trying to set table without pushing key and value to stack!".

(** [pushTableValue(int index)] *)
Definition pushTableValue_int (index : Z) : M LuaWrapper unit :=
  withL (
    L <- get ;;
    (if negb (lua_istable L (-1)) then luaL_error get_without_table else ret tt) ;;
    lua_pushinteger index ;;
    lua_gettable (-2)).

(** [pushTableValue(char* key)] *)
Definition pushTableValue (key : string) : M LuaWrapper unit :=
  withL (
    L <- get ;;
    (if negb (lua_istable L (-1)) then luaL_error get_without_table else ret tt) ;;
    lua_pushstring key ;;
    lua_gettable (-2)).

Definition setTable : M LuaWrapper unit :=
  withL (
    L <- get ;;
    (if negb (lua_istable L (-3)) then luaL_error set_without_table else ret tt) ;;
    lua_settable (-3)).

(** *** C-Lua API functions *)

Definition getGlobal (name : string) : M LuaWrapper unit := withL (lua_getglobal name).

Definition setGlobal (name : string) : M LuaWrapper unit := withL (lua_setglobal name).

(** The text of
    [printf("Error running LuaWrapper::dofile doing file: %s\nerror: %s\n", ...)]. *)
Definition dofile_diagnostic (filename : string) (e : option string) : string :=
  "Error running LuaWrapper::dofile doing file: " ++ filename ++ nl
  ++ "error: " ++ show e ++ nl.

(** The text of [printf("Error running function %s: %s", ...)]. *)
Definition call_diagnostic (f e : option string) : string :=
  "Error running function " ++ show f ++ ": " ++ show e.

Definition doFile (filename : string) : M LuaWrapper Z :=
  r <- withL (luaL_dofile filename) ;;
  (if r =? 1 then
     e <- withL (lua_tostring (-1)) ;;
     printf (dofile_diagnostic filename e)
   else ret tt) ;;
  ret r.

Definition callFunction (nargs nresults : Z) : M LuaWrapper Z :=
  r <- withL (lua_pcall nargs nresults) ;;
  if negb (r =? 0) then
    f <- withL (lua_tostring (- (nargs + 1))) ;;
    e <- withL (lua_tostring (-1)) ;;
    printf (call_diagnostic f e) ;;
    ret 0
  else ret 1.

(** [registerFunc]: the function pointer is cast to [lua_CFunction]. *)
Definition registerFunc (funcname : string) (f : positive) : M LuaWrapper unit :=
  withL (lua_register funcname f).

Definition doesFuncExist (luafuncname : string) : M LuaWrapper Z :=
  getGlobal luafuncname ;;
  funcexists <- gets (fun w => lua_isfunction (m_luastate w) (-1)) ;;
  pop ;;
  if (funcexists : bool) then ret 1 else ret 0.

(** *** References *)

Definition pop2Ref : M LuaWrapper Z :=
  withL (L <- get ;; luaL_ref (l_registry (l_G L))).

Definition pushRef (refval : Z) : M LuaWrapper unit :=
  withL (
    L <- get ;;
    lua_rawgeti (l_registry (l_G L)) refval ;;
    luaL_unref (l_registry (l_G L)) refval).

(** The registry as the reference mechanism sees it: the value in a
    slot, and the table after [luaL_unref] released the reference [k]. *)
Definition registry_slot (w : LuaWrapper) (i : Z) : TValue :=
  match tables (l_G (m_luastate w)) !! l_registry (l_G (m_luastate w)) with
  | Some h => luaH_getnum (node h) i
  | None => VNil
  end.

Definition unref_store (t : positive) (h : Table) (k : Z) (g : global_State) : global_State :=
  let link := luaH_getnum (node h) FREELIST_REF in
  table_store t
    (mkTable (node_store (node h) (VNumber (cast_num k)) link) (metatable h))
    (VNumber (cast_num FREELIST_REF)) (VNumber (cast_num k))
    (table_store t h (VNumber (cast_num k)) link g).

(** *** Debugging *)

(** The text of [printf("Stack[%i]: %s\n", i, ...)]. *)
Definition dump_line (i : Z) (text : option string) : string :=
  "Stack[" ++ show_int i ++ "]: " ++ show text ++ nl.

(** The body of the loop [for( int i=1; i<=n; i++ )], with the number of
    turns still to run. *)
Fixpoint stackDump_loop (turns : nat) (i : Z) : M LuaWrapper unit :=
  match turns with
  | O => ret tt
  | S turns' =>
      text <- withL (lua_tostring (- i)) ;;
      printf (dump_line i text) ;;
      stackDump_loop turns' (i + 1)
  end.

Definition stackDump : M LuaWrapper unit :=
  n <- gets (fun w => lua_gettop (m_luastate w)) ;;
  printf ("Number of Elements on Stack: " ++ show_int n ++ nl) ;;
  stackDump_loop (Z.to_nat n) 1.

(** The lines [stackDump] prints for the values of a stack, top first,
    numbered from [i]. *)
Fixpoint dump_lines (i : Z) (st : list TValue) : list string :=
  match st with
  | [] => []
  | v :: rest => dump_line i (tostring_text v) :: dump_lines (i + 1) rest
  end.

(** *** Files *)

(** The part of [LuaWrapperOpenFile] after the mode is classified. *)
Definition open_with_lua (fname s : string) : M LuaWrapper Z :=
  getGlobal "io.open" ;;
  pushString fname ;;
  pushString s ;;
  callFunction 2 1 ;;
  fp <- popUserdata ;;
  ret fp.

Definition LuaWrapperOpenFile (fname s : string) : M LuaWrapper Z :=
  if strcmp0 s "w" || strcmp0 s "wb" || strcmp0 s "w+" then
    modify (set_status "_OUTPUT") ;; open_with_lua fname s
  else if strcmp0 s "a" || strcmp0 s "ab" || strcmp0 s "a+" then
    modify (set_status "_OUTPUT") ;; open_with_lua fname s
  else if strcmp0 s "r" || strcmp0 s "rb" || strcmp0 s "r+" then
    modify (set_status "_INPUT") ;; open_with_lua fname s
  else ret 0.

Definition LuaWrapperCloseFile (fp : Z) : M LuaWrapper unit :=
  getGlobal "io.close" ;;
  callFunction 0 0 ;;
  ret tt.

End Wrapper.

(** ** Vocabulary of the statements about files *)

(** The mode strings [LuaWrapperOpenFile] tells apart. *)
Definition output_modes : list string := ["w"; "wb"; "w+"; "a"; "ab"; "a+"].
Definition input_modes : list string := ["r"; "rb"; "r+"].

(** The tag [LuaWrapperOpenFile] records for a mode it supports. *)
Definition mode_tag (s : string) : string :=
  if existsb (String.eqb s) output_modes then "_OUTPUT" else "_INPUT".

(** An outcome that leaves [m_status] as it was in [w]. *)
Definition keeps_status {A} (w : LuaWrapper) (r : result LuaWrapper A) : Prop :=
  match r with
  | Ok _ w' | Raise _ w' => m_status w' = m_status w
  | Undefined | Diverge => True
  end.

(** ** Host values

    The five push members, gathered so that a statement can speak of
    "a pushed value" of any kind. *)

Inductive host_value : Type :=
  | HNumber (n : lua_Number)
  | HInt (n : Z)
  | HString (s : string)
  | HNil
  | HLUserdata (p : Z).

Definition push `{LuaEngine} (v : host_value) : M LuaWrapper unit :=
  match v with
  | HNumber n => pushNumber n
  | HInt n => pushInt n
  | HString s => pushString s
  | HNil => pushNil
  | HLUserdata p => pushLUserdata p
  end.

Definition pushed (v : host_value) : TValue :=
  match v with
  | HNumber n => VNumber n
  | HInt n => VNumber (cast_num n)
  | HString s => VString s
  | HNil => VNil
  | HLUserdata p => VLightUserdata p
  end.

(** ** A small concrete engine and heap, used to evaluate the code *)

Module Demo.

(** The functions of the demonstration engine, by address. *)
Definition run (f : positive) (args : list TValue) (g : global_State) : call_outcome :=
  match f with
  | 1%positive => Returned [VNumber (cast_num 1); VNumber (cast_num 2)] g  (* return 1, 2 *)
  | 2%positive => Threw LUA_ERRRUN (VTable 5) g                (* error(t), t a table *)
  | 3%positive => Threw LUA_ERRRUN (VString "no such field") g (* error("no such field") *)
  | 5%positive => Returned [VUserdata 4096] g                  (* io.open *)
  | 6%positive => Returned [VBoolean true] g                   (* io.close *)
  | _ => Returned [] g
  end.

Definition loadfile (path : string) (g : global_State)
  : (positive * global_State) + (err_status * string) :=
  if String.eqb path "raise.lua" then inl (2%positive, g)
  else if String.eqb path "two.lua" then inl (1%positive, g)
  else inr (LUA_ERRFILE, "cannot open " ++ path).

(** The least border: the length of the run of keys 1, 2, ... *)
Fixpoint border (fuel : nat) (n : list (TValue * TValue)) (i : Z) : nat :=
  match fuel with
  | O => O
  | S fuel' =>
      if ttisnil (luaH_getnum n (i + 1)) then O else S (border fuel' n (i + 1))
  end.

Definition getn (h : Table) : nat := border (length (node h)) (node h) 0.

(** Unsigned decimal numerals only. *)
Definition str2d (s : string) : option lua_Number :=
  match NilEmpty.uint_of_string s with
  | Some u => Some (cast_num (Z.of_uint u))
  | None => None
  end.

(** Integral values in decimal, anything else as a fixed text. *)
Definition number2str (d : lua_Number) : string :=
  match d with
  | S754_zero _ => "0"
  | S754_finite _ _ _ => NilZero.string_of_int (Z.to_int (lua_number2integer d))
  | S754_infinity s => if s then "-inf" else "inf"
  | S754_nan => "nan"
  end.

Definition engine : LuaEngine := {|
  luaD_run := run;
  luaL_loadfile_chunk := loadfile;
  luaH_getn := getn;
  luaO_str2d := str2d;
  lua_number2str := number2str
|}.

(** A heap after [luaL_openlibs]: the registry (1), the globals (2) with
    the library table [io] (3), and a table (5) whose metatable (4)
    raises an error for every missing field. *)
Definition heap : global_State := {|
  tables := list_to_map [
    (1%positive, mkTable [] None);
    (2%positive, mkTable [(VString "io", VTable 3)] None);
    (3%positive, mkTable [(VString "open", VFunction 5); (VString "close", VFunction 6)] None);
    (4%positive, mkTable [(VString "__index", VFunction 3)] None);
    (5%positive, mkTable [] (Some 4%positive))];
  udata_mt := ∅;
  mt := ∅;
  l_registry := 1;
  l_gt := 2
|}.

Definition state (st : list TValue) : LuaWrapper := mkWrapper (mkLua st heap) None [].

(** The same heap after the host bound the two functions of the [io]
    library to globals named [io.open] and [io.close]. *)
Definition bound_heap : global_State := {|
  tables := list_to_map [
    (1%positive, mkTable [] None);
    (2%positive, mkTable [(VString "io.close", VFunction 6); (VString "io.open", VFunction 5);
                          (VString "io", VTable 3)] None);
    (3%positive, mkTable [(VString "open", VFunction 5); (VString "close", VFunction 6)] None)];
  udata_mt := ∅;
  mt := ∅;
  l_registry := 1;
  l_gt := 2
|}.

End Demo.

(** * Properties *)

(** ** Stack primitives *)

Section StackFacts.
Context `{LuaEngine}.

Lemma index2value_top v rest g : index2value (mkLua (v :: rest) g) (-1) = Some v.
Proof. reflexivity. Qed.

Lemma index2value_second v u rest g : index2value (mkLua (v :: u :: rest) g) (-2) = Some u.
Proof. reflexivity. Qed.

Lemma index2value_third v u t rest g :
  index2value (mkLua (v :: u :: t :: rest) g) (-3) = Some t.
Proof. reflexivity. Qed.

Lemma lua_settop_0 L : lua_settop 0 L = Ok tt (set_stack [] L).
Proof.
  unfold lua_settop. simpl.
  rewrite Nat.sub_0_r, drop_all. reflexivity.
Qed.

Lemma lua_pop_1 v rest g : lua_pop 1 (mkLua (v :: rest) g) = Ok tt (mkLua rest g).
Proof.
  unfold lua_pop, lua_settop. cbn [stack].
  replace (- (1) - 1) with (-2) by lia.
  change (0 <=? -2) with false. cbv iota.
  replace (- (-2 + 1) <=? Z.of_nat (length (v :: rest))) with true.
  - reflexivity.
  - symmetry. apply Z.leb_le. cbn [length]. lia.
Qed.

Lemma lua_type_top v rest g :
  lua_type (mkLua (v :: rest) g) (-1) = luaType_value (ttype v).
Proof. reflexivity. Qed.

Lemma lua_isnumber_top v rest g :
  lua_isnumber (mkLua (v :: rest) g) (-1)
  = match luaV_tonumber (Some v) with Some _ => true | None => false end.
Proof. reflexivity. Qed.

Lemma lua_tonumber_top v rest g :
  lua_tonumber (mkLua (v :: rest) g) (-1)
  = match luaV_tonumber (Some v) with Some n => n | None => S754_zero false end.
Proof. reflexivity. Qed.

Lemma lua_tointeger_top v rest g :
  lua_tointeger (mkLua (v :: rest) g) (-1)
  = match luaV_tonumber (Some v) with Some n => lua_number2integer n | None => 0 end.
Proof. reflexivity. Qed.

Lemma lua_isstring_top v rest g :
  lua_isstring (mkLua (v :: rest) g) (-1)
  = match v with VString _ | VNumber _ => true | _ => false end.
Proof. reflexivity. Qed.

Lemma lua_isuserdata_top v rest g :
  lua_isuserdata (mkLua (v :: rest) g) (-1)
  = match v with VUserdata _ | VLightUserdata _ => true | _ => false end.
Proof. reflexivity. Qed.

Lemma lua_touserdata_top v rest g :
  lua_touserdata (mkLua (v :: rest) g) (-1)
  = match v with VUserdata p | VLightUserdata p => p | _ => 0 end.
Proof. reflexivity. Qed.

Lemma lua_isnil_top v rest g :
  lua_isnil (mkLua (v :: rest) g) (-1) = ttisnil v.
Proof. destruct v; reflexivity. Qed.

Lemma lua_istable_top v rest g :
  lua_istable (mkLua (v :: rest) g) (-1) = match v with VTable _ => true | _ => false end.
Proof. destruct v; reflexivity. Qed.

Lemma lua_isfunction_top v rest g :
  lua_isfunction (mkLua (v :: rest) g) (-1)
  = match v with VFunction _ => true | _ => false end.
Proof. destruct v; reflexivity. Qed.

Lemma lua_istable_third v u t rest g :
  lua_istable (mkLua (v :: u :: t :: rest) g) (-3)
  = match t with VTable _ => true | _ => false end.
Proof. destruct t; reflexivity. Qed.

Lemma lua_tostring_top v rest g :
  lua_tostring (-1) (mkLua (v :: rest) g)
  = Ok (tostring_text v) (mkLua (tostring_value v :: rest) g).
Proof. destruct v; reflexivity. Qed.

End StackFacts.

(** ** Numbers: an [int] survives the trip through a [double] *)

Lemma digits2_pos_iter (p k : positive) :
  digits2_pos (Pos.iter xO p k) = (digits2_pos p + k)%positive.
Proof.
  induction k as [|k IH] using Pos.peano_ind.
  - simpl. lia.
  - rewrite Pos.iter_succ. simpl. rewrite IH. lia.
Qed.

Lemma pos_iter_xO (p k : positive) : Z.pos (Pos.iter xO p k) = Z.pos p * 2 ^ Z.pos k.
Proof.
  induction k as [|k IH] using Pos.peano_ind.
  - simpl. lia.
  - rewrite Pos.iter_succ, Pos2Z.inj_xO, IH, Pos2Z.inj_succ, Z.pow_succ_r by lia. lia.
Qed.

Lemma digits2_pos_lt (p : positive) : Z.pos p < 2 ^ Z.pos (digits2_pos p).
Proof.
  induction p as [p IH|p IH|]; simpl digits2_pos.
  - rewrite Pos2Z.inj_succ, Z.pow_succ_r by lia. lia.
  - rewrite Pos2Z.inj_succ, Z.pow_succ_r by lia. lia.
  - simpl. lia.
Qed.

Lemma digits2_pos_ge (p : positive) : 2 ^ (Z.pos (digits2_pos p) - 1) <= Z.pos p.
Proof.
  induction p as [p IH|p IH|]; simpl digits2_pos.
  - rewrite Pos2Z.inj_succ. replace (Z.succ (Z.pos (digits2_pos p)) - 1) with (Z.succ (Z.pos (digits2_pos p) - 1)) by lia.
    rewrite Z.pow_succ_r by lia. lia.
  - rewrite Pos2Z.inj_succ. replace (Z.succ (Z.pos (digits2_pos p)) - 1) with (Z.succ (Z.pos (digits2_pos p) - 1)) by lia.
    rewrite Z.pow_succ_r by lia. lia.
  - simpl. lia.
Qed.

Lemma digits2_pos_le (p : positive) (k : Z) :
  Z.pos p < 2 ^ k -> 0 <= k -> Z.pos (digits2_pos p) <= k.
Proof.
  intros Hp Hk.
  destruct (Z_le_gt_dec (Z.pos (digits2_pos p)) k) as [|Hgt]; [assumption|].
  exfalso.
  pose proof (digits2_pos_ge p) as Hge.
  assert (2 ^ k <= 2 ^ (Z.pos (digits2_pos p) - 1)) by (apply Z.pow_le_mono_r; lia).
  lia.
Qed.

Lemma binary_round_aux_canonical (s : bool) (m : positive) (e : Z) :
  Z.pos (digits2_pos m) = 53 -> -1074 <= e <= 971 ->
  binary_round_aux prec emax s (Z.pos m) e loc_Exact = S754_finite s m e.
Proof.
  intros Hm He.
  unfold binary_round_aux, shr_fexp, fexp, emin, prec, emax. cbn [Zdigits2].
  rewrite Hm.
  rewrite Z.max_l by lia.
  replace (53 + e - 53 - e) with 0 by lia.
  cbn. rewrite Hm.
  rewrite Z.max_l by lia.
  replace (53 + e - 53 - e) with 0 by lia.
  cbn.
  replace (e <=? 1024 - 53) with true by (symmetry; apply Z.leb_le; lia).
  reflexivity.
Qed.

Lemma binary_round_exact (s : bool) (p : positive) :
  Z.pos p < 2 ^ 53 ->
  binary_round prec emax s p 0 = S754_finite s (fst (canon p)) (snd (canon p)).
Proof.
  intros Hp.
  pose proof (digits2_pos_le p 53 Hp ltac:(lia)) as Hd.
  unfold binary_round, canon.
  replace (fexp prec emax (Z.pos (digits2_pos p) + 0)) with (Z.pos (digits2_pos p) - 53)
    by (unfold fexp, emin, prec, emax; lia).
  unfold shl_align.
  rewrite Z.sub_0_r.
  destruct (Z.pos (digits2_pos p) - 53) as [|q|q] eqn:E; try lia; cbn [fst snd].
  - apply binary_round_aux_canonical; lia.
  - apply binary_round_aux_canonical; [|lia].
    change (PosDef.Pos.iter xO p q) with (Pos.iter xO p q).
    rewrite digits2_pos_iter. lia.
Qed.

Lemma canon_value (p : positive) :
  Z.pos p < 2 ^ 53 ->
  snd (canon p) <= 0 /\ -52 <= snd (canon p) /\ Z.pos (fst (canon p)) = Z.pos p * 2 ^ (- snd (canon p)).
Proof.
  intros Hp.
  pose proof (digits2_pos_le p 53 Hp ltac:(lia)) as Hd.
  unfold canon.
  destruct (Z.pos (digits2_pos p) - 53) as [|q|q] eqn:E; try lia; cbn [fst snd].
  - simpl. lia.
  - rewrite pos_iter_xO. split; [lia|]. split; [lia|]. repeat f_equal; lia.
Qed.

Lemma cast_num_exact (n : Z) :
  - 2 ^ 53 < n < 2 ^ 53 -> lua_number2integer (cast_num n) = n.
Proof.
  intros Hn. unfold cast_num, binary_normalize.
  destruct n as [|p|p].
  - reflexivity.
  - rewrite binary_round_exact by lia.
    destruct (canon_value p ltac:(lia)) as (Hle & _ & Hm).
    unfold lua_number2integer.
    destruct (0 <=? snd (canon p)) eqn:E.
    + apply Z.leb_le in E. assert (E0 : snd (canon p) = 0) by lia.
      rewrite Hm, E0. change (- 0) with 0. rewrite !Z.pow_0_r. lia.
    + rewrite Hm. apply Z.div_mul. apply Z.pow_nonzero; lia.
  - rewrite binary_round_exact by lia.
    destruct (canon_value p ltac:(lia)) as (Hle & _ & Hm).
    unfold lua_number2integer.
    destruct (0 <=? snd (canon p)) eqn:E.
    + apply Z.leb_le in E. assert (E0 : snd (canon p) = 0) by lia.
      rewrite Hm, E0. change (- 0) with 0. rewrite !Z.pow_0_r. lia.
    + rewrite Hm, Z.div_mul by (apply Z.pow_nonzero; lia). lia.
Qed.

Lemma SFeqb_finite_refl s m e : SFeqb (S754_finite s m e) (S754_finite s m e) = true.
Proof.
  unfold SFeqb, SFcompare.
  rewrite Z.compare_refl.
  change (Pos.compare_cont Eq m m) with (Pos.compare m m).
  rewrite Pos.compare_refl. destruct s; reflexivity.
Qed.

Lemma cast_num_eq_refl (n : Z) :
  - 2 ^ 53 < n < 2 ^ 53 -> luai_numeq (cast_num n) (cast_num n) = true.
Proof.
  intros Hn. unfold luai_numeq, cast_num, binary_normalize.
  destruct n as [|p|p].
  - reflexivity.
  - rewrite binary_round_exact by lia. apply SFeqb_finite_refl.
  - rewrite binary_round_exact by lia. apply SFeqb_finite_refl.
Qed.

Lemma cast_num_eq_zero (n : Z) :
  - 2 ^ 53 < n < 2 ^ 53 -> n <> 0 ->
  luai_numeq (cast_num 0) (cast_num n) = false /\ luai_numeq (cast_num n) (cast_num 0) = false.
Proof.
  intros Hn Hnz. unfold luai_numeq, cast_num, binary_normalize.
  destruct n as [|p|p]; [lia| |]; rewrite binary_round_exact by lia; split; reflexivity.
Qed.

Lemma to_int_id (n : Z) : int_range n -> to_int n = n.
Proof.
  unfold int_range, INT_MIN, INT_MAX, to_int. intros Hn.
  rewrite Z.mod_small by lia. lia.
Qed.

Lemma to_int_range (z : Z) : int_range (to_int z).
Proof.
  unfold int_range, INT_MIN, INT_MAX, to_int.
  pose proof (Z.mod_pos_bound (z + 2 ^ 31) (2 ^ 32) ltac:(lia)). lia.
Qed.

(** ** Typed stack protocol *)

(** Unfold the monadic plumbing and reduce the record projections. *)
Ltac proj_simpl :=
  cbv beta iota delta
    [m_luastate m_status console stack l_G set_luastate set_stack set_status
     tables udata_mt mt l_registry l_gt set_tables node metatable].

Ltac monad_unfold :=
  unfold withL, withG, zoom, bind, get, gets, put, modify, ret, luaL_error;
  proj_simpl.

Create Rewrite HintDb lua.
#[export] Hint Rewrite @index2value_top @index2value_second @index2value_third
  @lua_pop_1 @lua_type_top @lua_isnumber_top @lua_tonumber_top @lua_tointeger_top
  @lua_isstring_top @lua_isuserdata_top @lua_touserdata_top @lua_isnil_top
  @lua_istable_top @lua_isfunction_top @lua_istable_third @lua_tostring_top : lua.

(** Run the code as far as the shape of the stack decides it. *)
Ltac lua_run :=
  monad_unfold;
  repeat (progress (autorewrite with lua; cbn [negb]; proj_simpl)).

Section TypedStack.
Context `{LuaEngine}.

(** [pop()] is [lua_settop(L, 0)]. *)
Lemma pop_settop_0 (w : LuaWrapper) :
  pop w = Ok tt (set_luastate (set_stack [] (m_luastate w)) w).
Proof.
  unfold pop, withL, zoom, lua_pop.
  change (- -1 - 1) with 0.
  rewrite lua_settop_0. reflexivity.
Qed.

(** C1 (defect in the code).  [pop()] hands the count [-1] to [lua_pop],
    which expands to [lua_settop(L, 0)]: whatever the stack holds, the
    call empties it.  Exactly one value is removed only when the stack
    holds exactly one value. *)
Theorem pop_clears_stack (w : LuaWrapper) :
  pop w = Ok tt (set_luastate (set_stack [] (m_luastate w)) w)
  /\ (forall a b g s c,
        pop (mkWrapper (mkLua [a; b] g) s c) = Ok tt (mkWrapper (mkLua [] g) s c)).
Proof.
  assert (Hpop : forall w0, pop w0 = Ok tt (set_luastate (set_stack [] (m_luastate w0)) w0)).
  { intros w0. unfold pop, withL, zoom, lua_pop.
    change (- -1 - 1) with 0.
    rewrite lua_settop_0. reflexivity. }
  split.
  - apply Hpop.
  - intros a b g s c. rewrite Hpop. reflexivity.
Qed.

(** The four typed pops on a stack with a value at the top. *)
Lemma popInt_top (v : TValue) (rest : list TValue) g s c :
  popInt (mkWrapper (mkLua (v :: rest) g) s c)
  = match luaV_tonumber (Some v) with
    | Some n => Ok (to_int (lua_number2integer n)) (mkWrapper (mkLua rest g) s c)
    | None => Raise (VString number_mismatch) (mkWrapper (mkLua (v :: rest) g) s c)
    end.
Proof.
  unfold popInt; lua_run.
  destruct (luaV_tonumber (Some v)) eqn:E; lua_run; rewrite ?E; reflexivity.
Qed.

Lemma popNumber_top (v : TValue) (rest : list TValue) g s c :
  popNumber (mkWrapper (mkLua (v :: rest) g) s c)
  = match luaV_tonumber (Some v) with
    | Some n => Ok n (mkWrapper (mkLua rest g) s c)
    | None => Raise (VString number_mismatch) (mkWrapper (mkLua (v :: rest) g) s c)
    end.
Proof.
  unfold popNumber; lua_run.
  destruct (luaV_tonumber (Some v)) eqn:E; lua_run; rewrite ?E; reflexivity.
Qed.

Lemma popString_top (v : TValue) (rest : list TValue) g s c :
  popString (mkWrapper (mkLua (v :: rest) g) s c)
  = match tostring_text v with
    | Some t => Ok (Some t) (mkWrapper (mkLua rest g) s c)
    | None => Raise (VString string_mismatch) (mkWrapper (mkLua (v :: rest) g) s c)
    end.
Proof. unfold popString; lua_run. destruct v; lua_run; reflexivity. Qed.

Lemma popUserdata_top (v : TValue) (rest : list TValue) g s c :
  popUserdata (mkWrapper (mkLua (v :: rest) g) s c)
  = match v with
    | VUserdata p | VLightUserdata p => Ok p (mkWrapper (mkLua rest g) s c)
    | _ => Raise (VString userdata_mismatch) (mkWrapper (mkLua (v :: rest) g) s c)
    end.
Proof. unfold popUserdata; lua_run. destruct v; lua_run; reflexivity. Qed.

(** C2 (amended).  Each typed pop tests the top of the stack with the
    coercing predicate of the API: [popInt] and [popNumber] accept a
    number or a string that reads as a number, [popString] a string or a
    number, [popUserdata] a full or a light userdata.  When the test
    fails the pop raises an error whose message names the expected kind
    only and the stack is untouched; when it passes the value is
    converted, exactly one value is removed and the conversion returned. *)
Theorem typed_pop_checks (v : TValue) (rest : list TValue) g s c :
  let w := mkWrapper (mkLua (v :: rest) g) s c in
  let w' := mkWrapper (mkLua rest g) s c in
  popInt w = match luaV_tonumber (Some v) with
             | Some n => Ok (to_int (lua_number2integer n)) w'
             | None => Raise (VString number_mismatch) w
             end
  /\ popNumber w = match luaV_tonumber (Some v) with
                   | Some n => Ok n w'
                   | None => Raise (VString number_mismatch) w
                   end
  /\ popString w = match v with
                   | VString t => Ok (Some t) w'
                   | VNumber n => Ok (Some (lua_number2str n)) w'
                   | _ => Raise (VString string_mismatch) w
                   end
  /\ popUserdata w = match v with
                     | VUserdata p | VLightUserdata p => Ok p w'
                     | _ => Raise (VString userdata_mismatch) w
                     end.
Proof.
  intros w w'. subst w w'.
  split; [apply popInt_top|].
  split; [apply popNumber_top|].
  split; [|apply popUserdata_top].
  rewrite popString_top. destruct v; reflexivity.
Qed.

(** C7.  Pushing a value of a kind and popping it with the pop of the
    same kind returns the value and leaves the wrapper, and so the depth
    of the stack, as it was before the push: for a [double], for an
    [int], for a string and for a light userdata pointer. *)
Theorem push_pop_roundtrip (w : LuaWrapper) (d : lua_Number) (n : Z) (t : string) (p : Z) :
  int_range n ->
  (pushNumber d ;; popNumber) w = Ok d w
  /\ (pushInt n ;; popInt) w = Ok n w
  /\ (pushString t ;; popString) w = Ok (Some t) w
  /\ (pushLUserdata p ;; popUserdata) w = Ok p w.
Proof.
  intros Hn. destruct w as [[st g] s c].
  repeat split.
  - unfold bind at 1. unfold pushNumber, withL, zoom, lua_pushnumber, lua_push, modify.
    proj_simpl.
    rewrite popNumber_top. reflexivity.
  - unfold bind at 1. unfold pushInt, withL, zoom, lua_pushinteger, lua_push, modify.
    proj_simpl.
    rewrite popInt_top.
    cbn [luaV_tonumber].
    assert (- 2 ^ 53 < n < 2 ^ 53) by (unfold int_range, INT_MIN, INT_MAX in Hn; lia).
    rewrite cast_num_exact, to_int_id by assumption. reflexivity.
  - unfold bind at 1. unfold pushString, withL, zoom, lua_pushstring, lua_push, modify.
    proj_simpl.
    rewrite popString_top. reflexivity.
  - unfold bind at 1. unfold pushLUserdata, withL, zoom, lua_pushlightuserdata, lua_push, modify.
    proj_simpl.
    rewrite popUserdata_top. reflexivity.
Qed.

End TypedStack.

(** ** Tables *)

Section TableFacts.
Context `{LuaEngine}.

Lemma luai_numeq_trans_l (x a b : lua_Number) :
  luai_numeq x a = true -> luai_numeq x b = luai_numeq a b.
Proof.
  unfold luai_numeq, SFeqb, SFcompare.
  destruct x as [sx|sx| |sx mx ex], a as [sa|sa| |sa ma ea]; intros Hc;
    try discriminate; try (destruct sx; discriminate); try (destruct sa; discriminate).
  - destruct b; reflexivity.
  - destruct sx, sa; try discriminate; reflexivity.
  - destruct sx, sa; try discriminate;
      destruct (Z.compare_spec ex ea) as [->| |]; try discriminate;
      change (Pos.compare_cont Eq mx ma) with (Pos.compare mx ma) in Hc;
      destruct (Pos.compare_spec mx ma) as [->| |]; try discriminate; reflexivity.
Qed.

Lemma rawequal_trans_l (x a b : TValue) :
  luaO_rawequalObj x a = true -> luaO_rawequalObj x b = luaO_rawequalObj a b.
Proof.
  destruct x, a; try discriminate; cbn [luaO_rawequalObj]; intros Hxa.
  - reflexivity.
  - apply Bool.eqb_prop in Hxa. subst. reflexivity.
  - apply Z.eqb_eq in Hxa. subst. reflexivity.
  - destruct b; try reflexivity. apply luai_numeq_trans_l. assumption.
  - apply String.eqb_eq in Hxa. subst. reflexivity.
  - apply Pos.eqb_eq in Hxa. subst. reflexivity.
  - apply Pos.eqb_eq in Hxa. subst. reflexivity.
  - apply Z.eqb_eq in Hxa. subst. reflexivity.
  - apply Pos.eqb_eq in Hxa. subst. reflexivity.
Qed.

Lemma luaH_get_remove (n : list (TValue * TValue)) (key : TValue) :
  luaH_get (node_remove n key) key = VNil.
Proof.
  unfold node_remove.
  induction n as [|[k v] r IH]; [reflexivity|].
  rewrite filter_cons. cbn [fst].
  destruct (luaO_rawequalObj k key) eqn:E; cbn [negb].
  - rewrite decide_False by discriminate. assumption.
  - rewrite decide_True by reflexivity. cbn [luaH_get]. rewrite E. assumption.
Qed.

Lemma luaH_get_remove_other (n : list (TValue * TValue)) (key key' : TValue) :
  luaO_rawequalObj key key' = false ->
  luaH_get (node_remove n key) key' = luaH_get n key'.
Proof.
  intros Hne. unfold node_remove.
  induction n as [|[k v] r IH]; [reflexivity|].
  rewrite filter_cons. cbn [fst luaH_get].
  destruct (luaO_rawequalObj k key) eqn:E; cbn [negb].
  - rewrite decide_False by discriminate.
    rewrite (rawequal_trans_l k key key' E), Hne. assumption.
  - rewrite decide_True by reflexivity. cbn [luaH_get]. rewrite IH. reflexivity.
Qed.

Lemma luaH_get_store_same (n : list (TValue * TValue)) (key v : TValue) :
  luaO_rawequalObj key key = true ->
  luaH_get (node_store n key v) key = v.
Proof.
  intros Hrefl. unfold node_store.
  destruct v; try (cbn [luaH_get]; rewrite Hrefl; reflexivity).
  apply luaH_get_remove.
Qed.

Lemma luaH_get_store_other (n : list (TValue * TValue)) (key key' v : TValue) :
  luaO_rawequalObj key key' = false ->
  luaH_get (node_store n key v) key' = luaH_get n key'.
Proof.
  intros Hne. unfold node_store.
  destruct v; try (cbn [luaH_get]; rewrite Hne); apply luaH_get_remove_other; assumption.
Qed.

Lemma rawequal_string_refl (s : string) : luaO_rawequalObj (VString s) (VString s) = true.
Proof. apply String.eqb_refl. Qed.

Lemma rawequal_int_refl (i : Z) :
  - 2 ^ 53 < i < 2 ^ 53 ->
  luaO_rawequalObj (VNumber (cast_num i)) (VNumber (cast_num i)) = true.
Proof. apply cast_num_eq_refl. Qed.

Lemma key_isnan_int (i : Z) : - 2 ^ 53 < i < 2 ^ 53 -> key_isnan (VNumber (cast_num i)) = false.
Proof.
  intros Hi. unfold key_isnan, luai_numisnan. rewrite cast_num_eq_refl by assumption.
  reflexivity.
Qed.

(** One turn of the loops of [luaV_gettable] and [luaV_settable]. *)
Lemma luaV_gettable_loop_S (loop : nat) (t key : TValue) (g : global_State) :
  luaV_gettable_loop (S loop) t key g =
  let try_tm (tm : TValue) :=
    match tm with
    | VFunction f => callTMres f [t; key] g
    | _ => luaV_gettable_loop loop tm key g
    end in
  match t with
  | VTable a =>
      match tables g !! a with
      | None => Undefined
      | Some h =>
          let res := luaH_get (node h) key in
          if negb (ttisnil res) then Ok res g
          else match luaT_gettm g (metatable h) "__index" with
               | VNil => Ok res g
               | tm => try_tm tm
               end
      end
  | _ =>
      match luaT_gettmbyobj g t "__index" with
      | VNil => luaG_typeerror t "index" g
      | tm => try_tm tm
      end
  end.
Proof. reflexivity. Qed.

Lemma luaV_settable_loop_S (loop : nat) (t key val : TValue) (g : global_State) :
  luaV_settable_loop (S loop) t key val g =
  let try_tm (tm : TValue) :=
    match tm with
    | VFunction f => callTM f [t; key; val] g
    | _ => luaV_settable_loop loop tm key val g
    end in
  match t with
  | VTable a =>
      match tables g !! a with
      | None => Undefined
      | Some h =>
          if negb (ttisnil (luaH_get (node h) key)) then
            Ok tt (table_store a h key val g)
          else if ttisnil key then Raise (VString "table index is nil") g
          else if key_isnan key then Raise (VString "table index is NaN") g
          else match luaT_gettm g (metatable h) "__newindex" with
               | VNil => Ok tt (table_store a h key val g)
               | tm => try_tm tm
               end
      end
  | _ =>
      match luaT_gettmbyobj g t "__newindex" with
      | VNil => luaG_typeerror t "index" g
      | tm => try_tm tm
      end
  end.
Proof. reflexivity. Qed.

(** Without an [__index] metamethod, or when the field is there, the
    index event is a primitive read. *)
Lemma luaV_gettable_raw (g : global_State) (a : positive) (h : Table) (key : TValue) :
  tables g !! a = Some h ->
  luaH_get (node h) key <> VNil \/ luaT_gettm g (metatable h) "__index" = VNil ->
  luaV_gettable (VTable a) key g = Ok (luaH_get (node h) key) g.
Proof.
  intros Ha Hraw. unfold luaV_gettable, MAXTAGLOOP.
  rewrite luaV_gettable_loop_S. cbv zeta. rewrite Ha.
  destruct (luaH_get (node h) key) eqn:E; cbn [ttisnil negb]; try reflexivity.
  destruct Hraw as [Hv|Htm]; [congruence|]. rewrite Htm. reflexivity.
Qed.

(** A table without metatable is written directly. *)
Lemma luaV_settable_raw (g : global_State) (a : positive) (h : Table) (key val : TValue) :
  tables g !! a = Some h -> metatable h = None ->
  ttisnil key = false -> key_isnan key = false ->
  luaV_settable (VTable a) key val g = Ok tt (table_store a h key val g).
Proof.
  intros Ha Hm Hk Hnan. unfold luaV_settable, MAXTAGLOOP.
  rewrite luaV_settable_loop_S. cbv zeta.
  rewrite Ha, Hk, Hnan, Hm. cbn [luaT_gettm].
  destruct (negb (ttisnil (luaH_get (node h) key))); reflexivity.
Qed.

End TableFacts.

Lemma bind_Ok {S A B} (m : M S A) (k : A -> M S B) (s s' : S) (a : A) :
  m s = Ok a s' -> bind m k s = k a s'.
Proof. intros Hm. unfold bind. rewrite Hm. reflexivity. Qed.

Section TableOps.
Context `{LuaEngine}.

Lemma createTable_ok st g s c :
  createTable (mkWrapper (mkLua st g) s c)
  = Ok tt (mkWrapper
             (mkLua (VTable (fresh (dom (tables g))) :: st)
                    (set_tables (<[fresh (dom (tables g)) := mkTable [] None]> (tables g)) g))
             s c).
Proof. reflexivity. Qed.

Lemma push_ok (val : host_value) st g s c :
  push val (mkWrapper (mkLua st g) s c) = Ok tt (mkWrapper (mkLua (pushed val :: st) g) s c).
Proof. destruct val; reflexivity. Qed.

Lemma pushString_ok (t : string) st g s c :
  pushString t (mkWrapper (mkLua st g) s c)
  = Ok tt (mkWrapper (mkLua (VString t :: st) g) s c).
Proof. reflexivity. Qed.

Lemma pushInt_ok (n : Z) st g s c :
  pushInt n (mkWrapper (mkLua st g) s c)
  = Ok tt (mkWrapper (mkLua (VNumber (cast_num n) :: st) g) s c).
Proof. reflexivity. Qed.

Lemma lua_settable_third v k t rest g :
  lua_settable (-3) (mkLua (v :: k :: t :: rest) g)
  = match luaV_settable t k v g with
    | Ok _ g' => Ok tt (mkLua (t :: rest) g')
    | Raise e g' => Raise e (mkLua (v :: k :: t :: rest) g')
    | Undefined => Undefined
    | Diverge => Diverge
    end.
Proof. reflexivity. Qed.

Lemma lua_gettable_second k t rest g :
  lua_gettable (-2) (mkLua (k :: t :: rest) g)
  = match luaV_gettable t k g with
    | Ok v g' => Ok tt (mkLua (v :: t :: rest) g')
    | Raise e g' => Raise e (mkLua (k :: t :: rest) g')
    | Undefined => Undefined
    | Diverge => Diverge
    end.
Proof. reflexivity. Qed.

Lemma setTable_raw v k a rest g s c h :
  tables g !! a = Some h -> metatable h = None ->
  ttisnil k = false -> key_isnan k = false ->
  setTable (mkWrapper (mkLua (v :: k :: VTable a :: rest) g) s c)
  = Ok tt (mkWrapper (mkLua (VTable a :: rest) (table_store a h k v g)) s c).
Proof.
  intros Ha Hm Hk Hnan. unfold setTable. lua_run.
  rewrite lua_settable_third, (luaV_settable_raw g a h k v) by assumption.
  reflexivity.
Qed.

Lemma pushTableValue_key_raw (k : TValue) a rest g s c h :
  tables g !! a = Some h ->
  luaH_get (node h) k <> VNil \/ luaT_gettm g (metatable h) "__index" = VNil ->
  withL (lua_push k ;; lua_gettable (-2)) (mkWrapper (mkLua (VTable a :: rest) g) s c)
  = Ok tt (mkWrapper (mkLua (luaH_get (node h) k :: VTable a :: rest) g) s c).
Proof.
  intros Ha Hraw. unfold lua_push. lua_run.
  rewrite lua_gettable_second, (luaV_gettable_raw g a h k) by assumption.
  reflexivity.
Qed.

Lemma pushTableValue_raw (key : string) a rest g s c h :
  tables g !! a = Some h ->
  luaH_get (node h) (VString key) <> VNil \/ luaT_gettm g (metatable h) "__index" = VNil ->
  pushTableValue key (mkWrapper (mkLua (VTable a :: rest) g) s c)
  = Ok tt (mkWrapper (mkLua (luaH_get (node h) (VString key) :: VTable a :: rest) g) s c).
Proof.
  intros Ha Hraw.
  rewrite <- (pushTableValue_key_raw (VString key) a rest g s c h Ha Hraw).
  unfold pushTableValue, lua_pushstring. lua_run. reflexivity.
Qed.

Lemma pushTableValue_int_raw (index : Z) a rest g s c h :
  tables g !! a = Some h ->
  luaH_get (node h) (VNumber (cast_num index)) <> VNil
  \/ luaT_gettm g (metatable h) "__index" = VNil ->
  pushTableValue_int index (mkWrapper (mkLua (VTable a :: rest) g) s c)
  = Ok tt (mkWrapper
             (mkLua (luaH_get (node h) (VNumber (cast_num index)) :: VTable a :: rest) g) s c).
Proof.
  intros Ha Hraw.
  rewrite <- (pushTableValue_key_raw (VNumber (cast_num index)) a rest g s c h Ha Hraw).
  unfold pushTableValue_int, lua_pushinteger. lua_run. reflexivity.
Qed.

(** The guards of the table operations. *)
Lemma pushTableValue_guard (key : string) (w : LuaWrapper) :
  lua_istable (m_luastate w) (-1) = false ->
  pushTableValue key w = Raise (VString get_without_table) w.
Proof.
  intros Hg. destruct w as [L s c]. unfold pushTableValue. monad_unfold.
  cbn [m_luastate] in Hg. rewrite Hg. reflexivity.
Qed.

Lemma pushTableValue_int_guard (index : Z) (w : LuaWrapper) :
  lua_istable (m_luastate w) (-1) = false ->
  pushTableValue_int index w = Raise (VString get_without_table) w.
Proof.
  intros Hg. destruct w as [L s c]. unfold pushTableValue_int. monad_unfold.
  cbn [m_luastate] in Hg. rewrite Hg. reflexivity.
Qed.

Lemma setTable_guard (w : LuaWrapper) :
  lua_istable (m_luastate w) (-3) = false ->
  setTable w = Raise (VString set_without_table) w.
Proof.
  intros Hg. destruct w as [L s c]. unfold setTable. monad_unfold.
  cbn [m_luastate] in Hg. rewrite Hg. reflexivity.
Qed.

End TableOps.

Section TableClaims.
Context `{LuaEngine}.

(** C8.  [createTable(); push(key); push(value); setTable();
    pushTableValue(key)], with a string key or an [int] key and a value
    pushed by any of the push members, leaves the value at the top and the
    new table right below it, above the untouched rest of the stack; the
    heap gains that one table, holding that one field.  Every table
    operation first tests for its table (at the top for the two
    [pushTableValue], at index -3 for [setTable]) and raises its
    contract error, touching nothing, when the test fails. *)
Theorem table_roundtrip (w : LuaWrapper) (k : string) (i : Z) (val : host_value) :
  int_range i ->
  let g := l_G (m_luastate w) in
  let a := fresh (dom (tables g)) in
  let after (key : TValue) :=
    mkWrapper
      (mkLua (pushed val :: VTable a :: stack (m_luastate w))
             (set_tables (<[a := mkTable (node_store [] key (pushed val)) None]> (tables g)) g))
      (m_status w) (console w) in
  tables g !! a = None
  /\ (createTable ;; pushString k ;; push val ;; setTable ;; pushTableValue k) w
     = Ok tt (after (VString k))
  /\ (createTable ;; pushInt i ;; push val ;; setTable ;; pushTableValue_int i) w
     = Ok tt (after (VNumber (cast_num i)))
  /\ (forall key w0, lua_istable (m_luastate w0) (-1) = false ->
        pushTableValue key w0 = Raise (VString get_without_table) w0)
  /\ (forall index w0, lua_istable (m_luastate w0) (-1) = false ->
        pushTableValue_int index w0 = Raise (VString get_without_table) w0)
  /\ (forall w0, lua_istable (m_luastate w0) (-3) = false ->
        setTable w0 = Raise (VString set_without_table) w0).
Proof.
  intros Hi. destruct w as [[st g] s c]. proj_simpl.
  assert (Hr : - 2 ^ 53 < i < 2 ^ 53)
    by (unfold int_range, INT_MIN, INT_MAX in Hi; lia).
  set (a := fresh (dom (tables g))).
  assert (Hfresh : tables g !! a = None)
    by (apply not_elem_of_dom; apply is_fresh).
  split; [exact Hfresh|].
  split; [|split; [|split; [|split]]].
  - rewrite (bind_Ok _ _ _ _ _ (createTable_ok st g s c)). cbv beta. fold a.
    rewrite (bind_Ok _ _ _ _ _ (pushString_ok k _ _ s c)). cbv beta.
    rewrite (bind_Ok _ _ _ _ _ (push_ok val _ _ s c)). cbv beta.
    rewrite (bind_Ok _ _ _ _ _
               (setTable_raw (pushed val) (VString k) a st _ s c (mkTable [] None)
                  (lookup_insert_eq _ _ _) eq_refl eq_refl eq_refl)).
    cbv beta.
    rewrite (pushTableValue_raw k a st _ s c (mkTable (node_store [] (VString k) (pushed val)) None)).
    + proj_simpl. rewrite luaH_get_store_same by apply rawequal_string_refl.
      unfold table_store. proj_simpl. rewrite insert_insert_eq. reflexivity.
    + unfold table_store. proj_simpl. apply lookup_insert_eq.
    + right. reflexivity.
  - rewrite (bind_Ok _ _ _ _ _ (createTable_ok st g s c)). cbv beta. fold a.
    rewrite (bind_Ok _ _ _ _ _ (pushInt_ok i _ _ s c)). cbv beta.
    rewrite (bind_Ok _ _ _ _ _ (push_ok val _ _ s c)). cbv beta.
    rewrite (bind_Ok _ _ _ _ _
               (setTable_raw (pushed val) (VNumber (cast_num i)) a st _ s c (mkTable [] None)
                  (lookup_insert_eq _ _ _) eq_refl eq_refl (key_isnan_int i Hr))).
    cbv beta.
    rewrite (pushTableValue_int_raw i a st _ s c
               (mkTable (node_store [] (VNumber (cast_num i)) (pushed val)) None)).
    + proj_simpl. rewrite luaH_get_store_same by (apply rawequal_int_refl; exact Hr).
      unfold table_store. proj_simpl. rewrite insert_insert_eq. reflexivity.
    + unfold table_store. proj_simpl. apply lookup_insert_eq.
    + right. reflexivity.
  - intros key w0. apply pushTableValue_guard.
  - intros index w0. apply pushTableValue_int_guard.
  - intros w0. apply setTable_guard.
Qed.

(** C10 (amended).  With a table at the top that has no [__index]
    metamethod (no metatable, or a metatable without that field) and a
    key the table holds no entry for, [pushTableValue(key)] does not
    fail: it pushes nil above the table and changes nothing else, and
    [isNil(-1)] then answers 1. *)
Theorem missing_field_is_nil (key : string) (a : positive) (h : Table)
    (rest : list TValue) (g : global_State) (s : option string) (c : list string) :
  tables g !! a = Some h ->
  luaT_gettm g (metatable h) "__index" = VNil ->
  luaH_get (node h) (VString key) = VNil ->
  pushTableValue key (mkWrapper (mkLua (VTable a :: rest) g) s c)
  = Ok tt (mkWrapper (mkLua (VNil :: VTable a :: rest) g) s c)
  /\ isNil (-1) (mkWrapper (mkLua (VNil :: VTable a :: rest) g) s c)
     = Ok 1 (mkWrapper (mkLua (VNil :: VTable a :: rest) g) s c).
Proof.
  intros Ha Htm Hmiss. split.
  - rewrite (pushTableValue_raw key a rest g s c h Ha (or_intror Htm)).
    rewrite Hmiss. reflexivity.
  - reflexivity.
Qed.

(** With a function as [__index] metamethod, a missing field is whatever
    the function answers: its first result, or the error it raises. *)
Lemma missing_field_metamethod (key : string) (a f : positive) (h : Table)
    (rest : list TValue) (g : global_State) (s : option string) (c : list string) :
  tables g !! a = Some h ->
  luaT_gettm g (metatable h) "__index" = VFunction f ->
  luaH_get (node h) (VString key) = VNil ->
  pushTableValue key (mkWrapper (mkLua (VTable a :: rest) g) s c)
  = match luaD_run f [VTable a; VString key] g with
    | Returned rets g' => Ok tt (mkWrapper (mkLua (hd VNil rets :: VTable a :: rest) g') s c)
    | Threw _ e g' => Raise e (mkWrapper (mkLua (VString key :: VTable a :: rest) g') s c)
    | NoReturn => Diverge
    end.
Proof.
  intros Ha Htm Hmiss. unfold pushTableValue, lua_pushstring, lua_push. lua_run.
  rewrite lua_gettable_second. unfold luaV_gettable, MAXTAGLOOP.
  rewrite luaV_gettable_loop_S. cbv zeta. rewrite Ha, Hmiss, Htm.
  cbn [ttisnil negb]. unfold callTMres.
  destruct (luaD_run f [VTable a; VString key] g); reflexivity.
Qed.

(** The same for the [int] overload. *)
Lemma missing_index_is_nil (index : Z) (a : positive) (h : Table)
    (rest : list TValue) (g : global_State) (s : option string) (c : list string) :
  tables g !! a = Some h ->
  luaT_gettm g (metatable h) "__index" = VNil ->
  luaH_get (node h) (VNumber (cast_num index)) = VNil ->
  pushTableValue_int index (mkWrapper (mkLua (VTable a :: rest) g) s c)
  = Ok tt (mkWrapper (mkLua (VNil :: VTable a :: rest) g) s c).
Proof.
  intros Ha Htm Hmiss.
  rewrite (pushTableValue_int_raw index a rest g s c h Ha (or_intror Htm)).
  rewrite Hmiss. reflexivity.
Qed.

End TableClaims.

(** ** Calls *)

Section CallFacts.
Context `{LuaEngine}.

Lemma tostring_slot_0 (v : TValue) (st : list TValue) :
  tostring_slot 0 (v :: st) = tostring_value v :: st.
Proof. destruct v; reflexivity. Qed.

Lemma tostring_slot_S (i : nat) (v : TValue) (st : list TValue) :
  tostring_slot (S i) (v :: st) = v :: tostring_slot i st.
Proof.
  unfold tostring_slot. cbn [lookup list_lookup].
  destruct (st !! i) as [[]|]; reflexivity.
Qed.

Lemma length_tostring_slot (i : nat) (st : list TValue) :
  length (tostring_slot i st) = length st.
Proof.
  unfold tostring_slot. destruct (st !! i) as [[]|]; try reflexivity.
  apply length_insert.
Qed.

Lemma tostring_value_idem (v : TValue) : tostring_value (tostring_value v) = tostring_value v.
Proof. destruct v; reflexivity. Qed.

Lemma tostring_text_value (v : TValue) : tostring_text (tostring_value v) = tostring_text v.
Proof. destruct v; reflexivity. Qed.

(** [lua_tostring] at a negative index [-(n+1)]. *)
Lemma lua_tostring_neg (n : Z) (L : lua_State) :
  0 <= n ->
  lua_tostring (- (n + 1)) L
  = Ok (match stack L !! Z.to_nat n with Some v => tostring_text v | None => None end)
       (set_stack (tostring_slot (Z.to_nat n) (stack L)) L).
Proof.
  intros Hn. unfold lua_tostring, index2adr, tostring_slot.
  replace (- (n + 1) <? 0) with true by (symmetry; apply Z.ltb_lt; lia).
  replace (- - (n + 1) - 1) with n by lia.
  destruct L as [st g]. proj_simpl.
  destruct (st !! Z.to_nat n) as [[]|]; reflexivity.
Qed.

(** [lua_pcall] when the function and its arguments are in place. *)
Lemma lua_pcall_shape (args : list TValue) (func : TValue) (base : list TValue)
    (g : global_State) (nargs nresults : Z) :
  nargs = Z.of_nat (length args) ->
  lua_pcall nargs nresults (mkLua (rev args ++ func :: base) g)
  = match luaD_call g func args with
    | Returned rets g' =>
        if nresults =? LUA_MULTRET then Ok 0 (mkLua (rev rets ++ base) g')
        else if nresults <? 0 then Undefined
        else Ok 0 (mkLua (rev (adjust_results (Z.to_nat nresults) rets) ++ base) g')
    | Threw st e g' => Ok (status_code st) (mkLua (e :: base) g')
    | NoReturn => Diverge
    end.
Proof.
  intros ->. unfold lua_pcall. proj_simpl.
  replace (Z.of_nat (length args) <? 0) with false by (symmetry; apply Z.ltb_ge; lia).
  replace (Z.of_nat (length (rev args ++ func :: base)) <? Z.of_nat (length args) + 1)
    with false
    by (symmetry; apply Z.ltb_ge; rewrite length_app, length_rev; cbn [length]; lia).
  cbn [orb]. rewrite Nat2Z.id.
  rewrite take_app_length' by (rewrite length_rev; reflexivity).
  rewrite drop_app_length' by (rewrite length_rev; reflexivity).
  rewrite rev_involutive. reflexivity.
Qed.

Lemma length_adjust_results (n : nat) (rets : list TValue) :
  length (adjust_results n rets) = n.
Proof.
  unfold adjust_results. rewrite length_take, length_app, length_replicate. lia.
Qed.

Lemma status_code_nonzero (st : err_status) : (status_code st =? 0) = false.
Proof. destruct st; reflexivity. Qed.

End CallFacts.

Section CallClaims.
Context `{LuaEngine}.

(** [callFunction] on a stack that holds the function and its
    arguments, by the outcome of the call. *)
Lemma callFunction_success (args : list TValue) (func : TValue) (base : list TValue)
    (g g' : global_State) (s : option string) (c : list string) (nargs nresults : Z)
    (rets : list TValue) :
  nargs = Z.of_nat (length args) ->
  0 <= nresults ->
  luaD_call g func args = Returned rets g' ->
  callFunction nargs nresults (mkWrapper (mkLua (rev args ++ func :: base) g) s c)
  = Ok 1 (mkWrapper (mkLua (rev (adjust_results (Z.to_nat nresults) rets) ++ base) g') s c).
Proof.
  intros Hargs Hres Hcall.
  unfold callFunction. unfold bind at 1. unfold withL at 1, zoom. proj_simpl.
  rewrite (lua_pcall_shape args func base g nargs nresults Hargs), Hcall.
  replace (nresults =? LUA_MULTRET) with false
    by (symmetry; apply Z.eqb_neq; unfold LUA_MULTRET; lia).
  replace (nresults <? 0) with false by (symmetry; apply Z.ltb_ge; lia).
  reflexivity.
Qed.

Lemma callFunction_failure (args : list TValue) (func : TValue) (base : list TValue)
    (g g' : global_State) (s : option string) (c : list string) (nargs nresults : Z)
    (st : err_status) (e : TValue) :
  nargs = Z.of_nat (length args) ->
  luaD_call g func args = Threw st e g' ->
  callFunction nargs nresults (mkWrapper (mkLua (rev args ++ func :: base) g) s c)
  = Ok 0 (mkWrapper
            (mkLua (tostring_value e
                      :: match Z.to_nat nargs with
                         | O => base
                         | S i => tostring_slot i base
                         end) g') s
            (call_diagnostic
               match Z.to_nat nargs with
               | O => tostring_text e
               | S i => match base !! i with Some v => tostring_text v | None => None end
               end (tostring_text e) :: c)).
Proof.
  intros Hargs Hcall.
  assert (Hn : 0 <= nargs) by lia.
  unfold callFunction. unfold bind at 1. unfold withL at 1, zoom. proj_simpl.
  rewrite (lua_pcall_shape args func base g nargs nresults Hargs), Hcall.
  rewrite status_code_nonzero. cbn [negb].
  monad_unfold. rewrite (lua_tostring_neg nargs _ Hn). proj_simpl.
  destruct (Z.to_nat nargs) as [|i] eqn:En.
  - rewrite tostring_slot_0. cbn [lookup list_lookup].
    autorewrite with lua. proj_simpl.
    rewrite tostring_value_idem, tostring_text_value. reflexivity.
  - rewrite tostring_slot_S. cbn [lookup list_lookup].
    autorewrite with lua. proj_simpl. reflexivity.
Qed.

Lemma callFunction_noreturn (args : list TValue) (func : TValue) (base : list TValue)
    (g : global_State) (s : option string) (c : list string) (nargs nresults : Z) :
  nargs = Z.of_nat (length args) ->
  luaD_call g func args = NoReturn ->
  callFunction nargs nresults (mkWrapper (mkLua (rev args ++ func :: base) g) s c) = Diverge.
Proof.
  intros Hargs Hcall.
  unfold callFunction. unfold bind at 1. unfold withL at 1, zoom. proj_simpl.
  rewrite (lua_pcall_shape args func base g nargs nresults Hargs), Hcall.
  reflexivity.
Qed.

(** C4 (amended).  With the function and its [nargs] arguments on the
    stack and a result count [nresults >= 0]: when the call succeeds,
    [callFunction] returns 1 and the function and arguments are replaced
    by exactly [nresults] values (missing results are nil, extra ones
    dropped); when the call raises an error, [callFunction] returns 0
    without raising, one value - the error value, as text if it is a
    number - tops the stack, the depth below it is unchanged, and the
    diagnostic is printed; when the function never returns, neither does
    [callFunction]. *)
Theorem callFunction_contract (args : list TValue) (func : TValue) (base : list TValue)
    (g : global_State) (s : option string) (c : list string) (nargs nresults : Z) :
  nargs = Z.of_nat (length args) ->
  0 <= nresults ->
  let w := mkWrapper (mkLua (rev args ++ func :: base) g) s c in
  match luaD_call g func args with
  | Returned rets g' =>
      callFunction nargs nresults w
      = Ok 1 (mkWrapper (mkLua (rev (adjust_results (Z.to_nat nresults) rets) ++ base) g') s c)
      /\ Z.of_nat (length (adjust_results (Z.to_nat nresults) rets)) = nresults
  | Threw _ e g' =>
      let base' := match Z.to_nat nargs with
                   | O => base
                   | S i => tostring_slot i base
                   end in
      let f := match Z.to_nat nargs with
               | O => tostring_text e
               | S i => match base !! i with Some v => tostring_text v | None => None end
               end in
      callFunction nargs nresults w
      = Ok 0 (mkWrapper (mkLua (tostring_value e :: base') g') s
                        (call_diagnostic f (tostring_text e) :: c))
      /\ length base' = length base
  | NoReturn => callFunction nargs nresults w = Diverge
  end.
Proof.
  intros Hargs Hres w. subst w.
  destruct (luaD_call g func args) as [rets g'|st e g'|] eqn:Hcall.
  - split.
    + apply callFunction_success; assumption.
    + rewrite length_adjust_results. lia.
  - cbv zeta. split.
    + apply (callFunction_failure args func base g g' s c nargs nresults st e Hargs Hcall).
    + destruct (Z.to_nat nargs); [reflexivity | apply length_tostring_slot].
  - apply callFunction_noreturn; assumption.
Qed.

(** With [LUA_MULTRET] a successful call leaves every result. *)
Lemma callFunction_multret (args : list TValue) (func : TValue) (base : list TValue)
    (g g' : global_State) (s : option string) (c : list string) (nargs : Z)
    (rets : list TValue) :
  nargs = Z.of_nat (length args) ->
  luaD_call g func args = Returned rets g' ->
  callFunction nargs LUA_MULTRET (mkWrapper (mkLua (rev args ++ func :: base) g) s c)
  = Ok 1 (mkWrapper (mkLua (rev rets ++ base) g') s c).
Proof.
  intros Hargs Hcall.
  unfold callFunction. unfold bind at 1. unfold withL at 1, zoom. proj_simpl.
  rewrite (lua_pcall_shape args func base g nargs LUA_MULTRET Hargs), Hcall.
  reflexivity.
Qed.

(** C5 (amended).  [doFile(path)] returns 0 when the file loads and
    runs, leaving the results of the chunk on the stack and printing
    nothing; it returns 1 when loading fails or the chunk raises an
    error.  On failure the error value stays at the top of the stack
    (converted to text if it is a number) and one diagnostic is printed,
    made of the path and of the text of that value; an error value that
    is neither a string nor a number has no text and the diagnostic
    carries a null placeholder instead.  A load failure always has a
    message. *)
Theorem doFile_status (filename : string) (st : list TValue) (g : global_State)
    (s : option string) (c : list string) :
  doFile filename (mkWrapper (mkLua st g) s c)
  = match luaL_loadfile_chunk filename g with
    | inr (_, msg) =>
        Ok 1 (mkWrapper (mkLua (VString msg :: st) g) s
                        (dofile_diagnostic filename (Some msg) :: c))
    | inl (f, g1) =>
        match luaD_run f [] g1 with
        | Returned rets g2 => Ok 0 (mkWrapper (mkLua (rev rets ++ st) g2) s c)
        | Threw _ e g2 =>
            Ok 1 (mkWrapper (mkLua (tostring_value e :: st) g2) s
                            (dofile_diagnostic filename (tostring_text e) :: c))
        | NoReturn => Diverge
        end
    end.
Proof.
  unfold doFile, luaL_dofile, luaL_loadfile. monad_unfold.
  destruct (luaL_loadfile_chunk filename g) as [[f g1]|[status msg]].
  - change (0 =? 0) with true. cbn [negb].
    rewrite (lua_pcall_shape [] (VFunction f) st g1 0 LUA_MULTRET eq_refl).
    cbn [luaD_call].
    destruct (luaD_run f [] g1) as [rets g2|status e g2|]; try reflexivity.
    rewrite status_code_nonzero. cbn [negb]. proj_simpl.
    change (1 =? 0) with false. change (1 =? 1) with true. cbn [negb].
    autorewrite with lua. reflexivity.
  - rewrite status_code_nonzero. cbn [negb]. proj_simpl.
    change (1 =? 1) with true. cbv iota.
    autorewrite with lua. reflexivity.
Qed.

End CallClaims.

(** ** References *)

Section RefFacts.
Context `{LuaEngine}.

Lemma lua_rawgeti_ok (t : positive) (n : Z) (st : list TValue) (g : global_State) (h : Table) :
  tables g !! t = Some h ->
  lua_rawgeti t n (mkLua st g) = Ok tt (mkLua (luaH_getnum (node h) n :: st) g).
Proof. intros Ht. unfold lua_rawgeti. cbn [l_G stack]. rewrite Ht. reflexivity. Qed.

Lemma lua_rawseti_ok (t : positive) (n : Z) (v : TValue) (st : list TValue)
    (g : global_State) (h : Table) :
  tables g !! t = Some h ->
  lua_rawseti t n (mkLua (v :: st) g)
  = Ok tt (mkLua st (table_store t h (VNumber (cast_num n)) v g)).
Proof. intros Ht. unfold lua_rawseti. cbn [l_G stack]. rewrite Ht. reflexivity. Qed.

Lemma lua_objlen_ok (t : positive) (L : lua_State) (h : Table) :
  tables (l_G L) !! t = Some h ->
  lua_objlen t L = Ok (Z.of_nat (luaH_getn h)) L.
Proof. intros Ht. unfold lua_objlen. rewrite Ht. reflexivity. Qed.

Lemma tables_table_store (t : positive) (h : Table) (k v : TValue) (g : global_State) :
  tables (table_store t h k v g) !! t
  = Some (mkTable (node_store (node h) k v) (metatable h)).
Proof. unfold table_store, set_tables. cbn [tables]. apply lookup_insert_eq. Qed.

Lemma lua_isnil_top_false (v : TValue) rest g :
  v <> VNil -> lua_isnil (mkLua (v :: rest) g) (-1) = false.
Proof. intros Hv. rewrite lua_isnil_top. destruct v; try reflexivity; congruence. Qed.

(** [luaL_ref] on a value that is not nil. *)
Lemma luaL_ref_ok (t : positive) (h : Table) (v : TValue) (rest : list TValue)
    (g : global_State) :
  tables g !! t = Some h -> v <> VNil ->
  luaL_ref t (mkLua (v :: rest) g)
  = let ref := freelist_head h in
    if negb (ref =? 0) then
      let h1 := mkTable (node_store (node h) (VNumber (cast_num FREELIST_REF))
                                    (luaH_getnum (node h) ref)) (metatable h) in
      Ok ref (mkLua rest
                (table_store t h1 (VNumber (cast_num ref)) v
                   (table_store t h (VNumber (cast_num FREELIST_REF))
                      (luaH_getnum (node h) ref) g)))
    else
      let ref' := to_int (Z.of_nat (luaH_getn h)) + 1 in
      Ok ref' (mkLua rest (table_store t h (VNumber (cast_num ref')) v g)).
Proof.
  intros Ht Hv. unfold luaL_ref.
  rewrite (lua_isnil_top_false v rest g Hv).
  rewrite (bind_Ok _ _ _ _ _ (lua_rawgeti_ok t FREELIST_REF _ g h Ht)).
  unfold bind at 1. unfold get at 1.
  rewrite lua_tointeger_top.
  unfold bind at 1. rewrite lua_pop_1.
  fold (freelist_head h). cbv zeta.
  destruct (negb (freelist_head h =? 0)) eqn:E.
  - unfold bind at 1. unfold bind at 1.
    rewrite (lua_rawgeti_ok t (freelist_head h) _ g h Ht).
    unfold bind at 1.
    rewrite (lua_rawseti_ok t FREELIST_REF _ _ g h Ht).
    unfold ret at 1.
    unfold bind at 1.
    rewrite (lua_rawseti_ok t (freelist_head h) v rest _ _ (tables_table_store _ _ _ _ _)).
    reflexivity.
  - unfold bind at 1. unfold bind at 1.
    rewrite (lua_objlen_ok t (mkLua (v :: rest) g) h Ht).
    unfold ret at 1. unfold bind at 1.
    rewrite (lua_rawseti_ok t _ v rest g h Ht).
    reflexivity.
Qed.

Lemma luaL_unref_ok (t : positive) (h : Table) (k : Z) (st : list TValue) (g : global_State) :
  tables g !! t = Some h -> 0 <= k ->
  luaL_unref t k (mkLua st g) = Ok tt (mkLua st (unref_store t h k g)).
Proof.
  intros Ht Hk. unfold luaL_unref.
  replace (0 <=? k) with true by (symmetry; apply Z.leb_le; lia).
  rewrite (bind_Ok _ _ _ _ _ (lua_rawgeti_ok t FREELIST_REF st g h Ht)).
  rewrite (bind_Ok _ _ _ _ _ (lua_rawseti_ok t k _ st g h Ht)).
  unfold bind at 1. unfold lua_pushinteger, lua_push, modify, set_stack.
  cbn [stack l_G].
  rewrite (lua_rawseti_ok t FREELIST_REF _ st _ _ (tables_table_store _ _ _ _ _)).
  reflexivity.
Qed.

Lemma pushRef_ok (k : Z) (st : list TValue) (g : global_State) (s : option string)
    (c : list string) (h : Table) :
  tables g !! l_registry g = Some h -> 0 <= k ->
  pushRef k (mkWrapper (mkLua st g) s c)
  = Ok tt (mkWrapper (mkLua (luaH_getnum (node h) k :: st) (unref_store (l_registry g) h k g)) s c).
Proof.
  intros Ht Hk. unfold pushRef, withL, zoom. cbn [m_luastate].
  unfold bind at 1. unfold get at 1. cbn [l_G].
  rewrite (bind_Ok _ _ _ _ _ (lua_rawgeti_ok (l_registry g) k st g h Ht)).
  rewrite (luaL_unref_ok (l_registry g) h k _ g Ht Hk).
  reflexivity.
Qed.

(** A negative key is not released. *)
Lemma pushRef_negative (k : Z) (st : list TValue) (g : global_State) (s : option string)
    (c : list string) (h : Table) :
  tables g !! l_registry g = Some h -> k < 0 ->
  pushRef k (mkWrapper (mkLua st g) s c)
  = Ok tt (mkWrapper (mkLua (luaH_getnum (node h) k :: st) g) s c).
Proof.
  intros Ht Hk. unfold pushRef, withL, zoom. cbn [m_luastate].
  unfold bind at 1. unfold get at 1. cbn [l_G].
  rewrite (bind_Ok _ _ _ _ _ (lua_rawgeti_ok (l_registry g) k st g h Ht)).
  unfold luaL_unref.
  replace (0 <=? k) with false by (symmetry; apply Z.leb_gt; lia).
  reflexivity.
Qed.

Lemma registry_slot_unref (k i : Z) (st : list TValue) (g : global_State)
    (s : option string) (c : list string) (h : Table) :
  registry_slot (mkWrapper (mkLua st (unref_store (l_registry g) h k g)) s c) i
  = luaH_get (node_store (node_store (node h) (VNumber (cast_num k))
                                      (luaH_getnum (node h) FREELIST_REF))
                         (VNumber (cast_num FREELIST_REF)) (VNumber (cast_num k)))
             (VNumber (cast_num i)).
Proof.
  unfold registry_slot, unref_store. cbn [m_luastate l_G].
  change (l_registry (table_store ?t ?h ?k ?v ?g)) with (l_registry g).
  rewrite tables_table_store. reflexivity.
Qed.

Lemma registry_slot_store (t : positive) (hx : Table) (k v : TValue) (gx : global_State)
    (st : list TValue) (s : option string) (c : list string) (j : Z) :
  t = l_registry gx ->
  registry_slot (mkWrapper (mkLua st (table_store t hx k v gx)) s c) j
  = luaH_get (node_store (node hx) k v) (VNumber (cast_num j)).
Proof.
  intros ->. unfold registry_slot. cbn [m_luastate l_G].
  change (l_registry (table_store ?t ?h ?k ?v ?g)) with (l_registry g).
  rewrite tables_table_store. reflexivity.
Qed.

(** Redeeming a positive key twice: the first call pushes the stored
    value and links the slot into the free list, the second pushes the
    link. *)
Lemma reattach_twice (k : Z) (v : TValue) (rest : list TValue) (g : global_State)
    (s : option string) (c : list string) (h : Table) :
  tables g !! l_registry g = Some h ->
  luaH_getnum (node h) k = v ->
  0 < k < 2 ^ 53 ->
  exists w2 w3,
    pushRef k (mkWrapper (mkLua rest g) s c) = Ok tt w2
    /\ stack (m_luastate w2) = v :: rest
    /\ registry_slot w2 k = luaH_getnum (node h) FREELIST_REF
    /\ registry_slot w2 FREELIST_REF = VNumber (cast_num k)
    /\ pushRef k w2 = Ok tt w3
    /\ stack (m_luastate w3) = luaH_getnum (node h) FREELIST_REF :: v :: rest.
Proof.
  intros Ht Hv Hk.
  assert (Hr : - 2 ^ 53 < k < 2 ^ 53) by lia.
  assert (Hne : luaO_rawequalObj (VNumber (cast_num FREELIST_REF)) (VNumber (cast_num k)) = false)
    by (apply (cast_num_eq_zero k Hr); lia).
  assert (Hslot : forall st' s' c',
            registry_slot (mkWrapper (mkLua st' (unref_store (l_registry g) h k g)) s' c') k
            = luaH_getnum (node h) FREELIST_REF).
  { intros. rewrite registry_slot_unref.
    rewrite luaH_get_store_other by exact Hne.
    apply luaH_get_store_same. apply rawequal_int_refl. exact Hr. }
  eexists. eexists.
  split. { apply (pushRef_ok k rest g s c h Ht). lia. }
  split. { cbn [m_luastate stack]. rewrite Hv. reflexivity. }
  split. { apply Hslot. }
  split. { rewrite registry_slot_unref. apply luaH_get_store_same. reflexivity. }
  split.
  { apply pushRef_ok; [|lia].
    change (l_registry (unref_store ?t ?h' ?k' ?g')) with (l_registry g').
    unfold unref_store. apply tables_table_store. }
  cbn [m_luastate stack node]. rewrite Hv. f_equal.
  specialize (Hslot rest s c). rewrite registry_slot_unref in Hslot. exact Hslot.
Qed.

End RefFacts.

Section RefClaims.
Context `{LuaEngine}.

Lemma reattach_after_store (k : Z) (v : TValue) (rest : list TValue) (gx : global_State)
    (hx : Table) (s : option string) (c : list string) :
  0 < k < 2 ^ 53 ->
  let w1 := mkWrapper
              (mkLua rest (table_store (l_registry gx) hx (VNumber (cast_num k)) v gx)) s c in
  registry_slot w1 k = v
  /\ exists w2 w3,
       pushRef k w1 = Ok tt w2
       /\ stack (m_luastate w2) = v :: rest
       /\ registry_slot w2 k = registry_slot w1 FREELIST_REF
       /\ registry_slot w2 FREELIST_REF = VNumber (cast_num k)
       /\ pushRef k w2 = Ok tt w3
       /\ stack (m_luastate w3) = registry_slot w1 FREELIST_REF :: v :: rest.
Proof.
  intros Hk w1. subst w1.
  assert (Hr : - 2 ^ 53 < k < 2 ^ 53) by lia.
  set (g1 := table_store (l_registry gx) hx (VNumber (cast_num k)) v gx).
  set (h1 := mkTable (node_store (node hx) (VNumber (cast_num k)) v) (metatable hx)).
  assert (Ht : tables g1 !! l_registry g1 = Some h1) by apply tables_table_store.
  assert (Hslot : forall i, registry_slot (mkWrapper (mkLua rest g1) s c) i
                            = luaH_getnum (node h1) i).
  { intros i. unfold registry_slot. cbn [m_luastate l_G]. rewrite Ht. reflexivity. }
  assert (Hv : luaH_getnum (node h1) k = v).
  { unfold luaH_getnum, h1. cbn [node].
    apply luaH_get_store_same. apply rawequal_int_refl. exact Hr. }
  split.
  - rewrite Hslot. exact Hv.
  - rewrite Hslot. exact (reattach_twice k v rest g1 s c h1 Ht Hv Hk).
Qed.

(** C6 (amended).  For a value [v] other than nil at the top of the
    stack, with a registry whose free list starts at a non-negative
    reference and whose length fits an [int]: [pop2Ref] removes [v] and
    returns a positive key [k] under which the registry holds [v], and
    leaves in slot 0 the link [freelist_next]; [pushRef(k)] right after
    pushes [v] and releases the key, that is, slot [k] now holds that
    link and [k] becomes the head of the free list; a second
    [pushRef(k)] therefore pushes the link, not the value that was
    stored: it brings [v] back exactly when [v] is that link, and a
    link that is not equal to [v] gives a top that is not equal to [v]. *)
Theorem detach_reattach (v : TValue) (rest : list TValue) (g : global_State)
    (s : option string) (c : list string) (h : Table) :
  v <> VNil ->
  tables g !! l_registry g = Some h ->
  0 <= freelist_head h ->
  Z.of_nat (luaH_getn h) < INT_MAX ->
  exists k w1 w2 w3,
    pop2Ref (mkWrapper (mkLua (v :: rest) g) s c) = Ok k w1
    /\ 0 < k
    /\ stack (m_luastate w1) = rest
    /\ registry_slot w1 k = v
    /\ registry_slot w1 FREELIST_REF = freelist_next h
    /\ pushRef k w1 = Ok tt w2
    /\ stack (m_luastate w2) = v :: rest
    /\ registry_slot w2 k = freelist_next h
    /\ registry_slot w2 FREELIST_REF = VNumber (cast_num k)
    /\ pushRef k w2 = Ok tt w3
    /\ stack (m_luastate w3) = freelist_next h :: v :: rest
    /\ (hd_error (stack (m_luastate w3)) = Some v <-> freelist_next h = v)
    /\ (luaO_rawequalObj (freelist_next h) v = false ->
        forall top, hd_error (stack (m_luastate w3)) = Some top ->
                    luaO_rawequalObj top v = false).
Proof.
  intros Hv Ht Hhead Hlen.
  assert (Href : pop2Ref (mkWrapper (mkLua (v :: rest) g) s c)
                 = match luaL_ref (l_registry g) (mkLua (v :: rest) g) with
                   | Ok a L => Ok a (mkWrapper L s c)
                   | Raise e L => Raise e (mkWrapper L s c)
                   | Undefined => Undefined
                   | Diverge => Diverge
                   end) by reflexivity.
  rewrite (luaL_ref_ok (l_registry g) h v rest g Ht Hv) in Href. cbv zeta in Href.
  pose proof (to_int_range (match luaV_tonumber (Some (luaH_getnum (node h) FREELIST_REF)) with
                            | Some n => lua_number2integer n
                            | None => 0
                            end)) as Hrange.
  fold (freelist_head h) in Hrange. unfold int_range, INT_MIN, INT_MAX in Hrange.
  unfold INT_MAX in Hlen.
  assert (Hend : forall w3 : LuaWrapper,
            stack (m_luastate w3) = freelist_next h :: v :: rest ->
            (hd_error (stack (m_luastate w3)) = Some v <-> freelist_next h = v)
            /\ (luaO_rawequalObj (freelist_next h) v = false ->
                forall top, hd_error (stack (m_luastate w3)) = Some top ->
                            luaO_rawequalObj top v = false)).
  { intros w3 ->. cbn [hd_error]. split.
    - split; [intros [= ->]; reflexivity | intros ->; reflexivity].
    - intros Hdiff top [= <-]. exact Hdiff. }
  unfold freelist_next in *.
  destruct (negb (freelist_head h =? 0)) eqn:E.
  - apply negb_true_iff, Z.eqb_neq in E.
    assert (Hk : 0 < freelist_head h < 2 ^ 53) by lia.
    assert (Hr : - 2 ^ 53 < freelist_head h < 2 ^ 53) by lia.
    set (g0 := table_store (l_registry g) h (VNumber (cast_num FREELIST_REF))
                 (luaH_getnum (node h) (freelist_head h)) g) in *.
    set (h0 := mkTable (node_store (node h) (VNumber (cast_num FREELIST_REF))
                                   (luaH_getnum (node h) (freelist_head h)))
                       (metatable h)) in *.
    destruct (reattach_after_store (freelist_head h) v rest g0 h0 s c Hk)
      as (Hs & w2 & w3 & H1 & H2 & H3 & H4 & H5 & H6).
    assert (Hlink : registry_slot
                      (mkWrapper
                         (mkLua rest (table_store (l_registry g0) h0
                                        (VNumber (cast_num (freelist_head h))) v g0)) s c)
                      FREELIST_REF
                    = luaH_getnum (node h) (freelist_head h)).
    { rewrite registry_slot_store by reflexivity.
      rewrite luaH_get_store_other by (apply (cast_num_eq_zero _ Hr); exact E).
      unfold h0. cbn [node]. apply luaH_get_store_same. reflexivity. }
    rewrite Hlink in H3, H6.
    exists (freelist_head h). eexists. exists w2, w3.
    split; [exact Href|].
    split; [lia|].
    split; [reflexivity|].
    split; [exact Hs|].
    split; [exact Hlink|].
    split; [exact H1|].
    split; [exact H2|].
    split; [exact H3|].
    split; [exact H4|].
    split; [exact H5|].
    split; [exact H6|].
    exact (Hend w3 H6).
  - apply negb_false_iff, Z.eqb_eq in E.
    assert (Hn : to_int (Z.of_nat (luaH_getn h)) = Z.of_nat (luaH_getn h))
      by (apply to_int_id; unfold int_range, INT_MIN, INT_MAX; lia).
    rewrite Hn in Href.
    assert (Hk : 0 < Z.of_nat (luaH_getn h) + 1 < 2 ^ 53) by lia.
    assert (Hr : - 2 ^ 53 < Z.of_nat (luaH_getn h) + 1 < 2 ^ 53) by lia.
    destruct (reattach_after_store (Z.of_nat (luaH_getn h) + 1) v rest g h s c Hk)
      as (Hs & w2 & w3 & H1 & H2 & H3 & H4 & H5 & H6).
    assert (Hlink : registry_slot
                      (mkWrapper
                         (mkLua rest (table_store (l_registry g) h
                                        (VNumber (cast_num (Z.of_nat (luaH_getn h) + 1))) v g))
                         s c)
                      FREELIST_REF
                    = luaH_getnum (node h) FREELIST_REF).
    { rewrite registry_slot_store by reflexivity.
      rewrite luaH_get_store_other by (apply (cast_num_eq_zero _ Hr); lia).
      reflexivity. }
    rewrite Hlink in H3, H6.
    exists (Z.of_nat (luaH_getn h) + 1). eexists. exists w2, w3.
    split; [exact Href|].
    split; [lia|].
    split; [reflexivity|].
    split; [exact Hs|].
    split; [exact Hlink|].
    split; [exact H1|].
    split; [exact H2|].
    split; [exact H3|].
    split; [exact H4|].
    split; [exact H5|].
    split; [exact H6|].
    exact (Hend w3 H6).
Qed.

(** The key of nil is the constant [LUA_REFNIL]; nothing is stored. *)
Lemma detach_nil (rest : list TValue) (g : global_State) (s : option string) (c : list string) :
  pop2Ref (mkWrapper (mkLua (VNil :: rest) g) s c)
  = Ok LUA_REFNIL (mkWrapper (mkLua rest g) s c).
Proof.
  unfold pop2Ref, withL, zoom. cbn [m_luastate].
  unfold bind at 1. unfold get at 1. cbn [l_G].
  unfold luaL_ref. rewrite lua_isnil_top. cbn [ttisnil].
  unfold bind. rewrite lua_pop_1. reflexivity.
Qed.

End RefClaims.

(** ** Looking up a function *)

Section Lookup.
Context `{LuaEngine}.

(** [doesFuncExist] answers whether the global is a function, and its
    [pop()] then empties the stack. *)
Lemma doesFuncExist_clears_stack (name : string) (w : LuaWrapper) :
  doesFuncExist name w
  = match getGlobal name w with
    | Ok _ w1 =>
        Ok (if lua_isfunction (m_luastate w1) (-1) then 1 else 0)
           (set_luastate (set_stack [] (m_luastate w1)) w1)
    | Raise e w1 => Raise e w1
    | Undefined => Undefined
    | Diverge => Diverge
    end.
Proof.
  unfold doesFuncExist. unfold bind at 1.
  destruct (getGlobal name w) as [[] w1|e w1| |]; try reflexivity.
  unfold bind, gets. rewrite pop_settop_0.
  destruct (lua_isfunction (m_luastate w1) (-1)); reflexivity.
Qed.

(** A global that is absent from a plain table of globals reads as nil. *)
Lemma getGlobal_absent (name : string) (st : list TValue) (g : global_State)
    (s : option string) (c : list string) (hG : Table) :
  tables g !! l_gt g = Some hG ->
  luaH_get (node hG) (VString name) = VNil ->
  luaT_gettm g (metatable hG) "__index" = VNil ->
  getGlobal name (mkWrapper (mkLua st g) s c) = Ok tt (mkWrapper (mkLua (VNil :: st) g) s c).
Proof.
  intros Ht Hmiss Htm. unfold getGlobal, withL, zoom, lua_getglobal. cbn [m_luastate l_G stack].
  rewrite (luaV_gettable_raw g (l_gt g) hG (VString name) Ht (or_intror Htm)), Hmiss.
  reflexivity.
Qed.

End Lookup.

(** ** Files *)

Section Files.
Context `{LuaEngine}.

Lemma keeps_status_bind {A B} (m : M LuaWrapper A) (k : A -> M LuaWrapper B) (w : LuaWrapper) :
  keeps_status w (m w) ->
  (forall a w', keeps_status w' (k a w')) ->
  keeps_status w (bind m k w).
Proof.
  intros Hm Hk. unfold bind.
  destruct (m w) as [a w'|e w'| |]; cbn in *; try assumption; try exact I.
  specialize (Hk a w'). destruct (k a w') as [b w''|e w''| |]; cbn in *; congruence.
Qed.

Lemma keeps_status_withL {A} (m : M lua_State A) (w : LuaWrapper) :
  keeps_status w (withL m w).
Proof. unfold withL, zoom. destruct (m (m_luastate w)); cbn; trivial. Qed.

Lemma keeps_status_callFunction (nargs nresults : Z) (w : LuaWrapper) :
  keeps_status w (callFunction nargs nresults w).
Proof.
  unfold callFunction.
  apply keeps_status_bind; [apply keeps_status_withL|].
  intros r w1. destruct (negb (r =? 0)); [|reflexivity].
  apply keeps_status_bind; [apply keeps_status_withL|]. intros f w2.
  apply keeps_status_bind; [apply keeps_status_withL|]. intros e w3.
  reflexivity.
Qed.

Lemma keeps_status_open_with_lua (fname s : string) (w : LuaWrapper) :
  keeps_status w (open_with_lua fname s w).
Proof.
  unfold open_with_lua, getGlobal, pushString, popUserdata.
  apply keeps_status_bind; [apply keeps_status_withL|]. intros _ w1.
  apply keeps_status_bind; [apply keeps_status_withL|]. intros _ w2.
  apply keeps_status_bind; [apply keeps_status_withL|]. intros _ w3.
  apply keeps_status_bind; [apply keeps_status_callFunction|]. intros _ w4.
  apply keeps_status_bind; [apply keeps_status_withL|]. intros fp w5.
  reflexivity.
Qed.

(** What [LuaWrapperOpenFile] does with the mode: the status tag is
    recorded before the engine is asked to open anything, and stays
    whatever the outcome; another mode returns the null pointer and
    leaves the wrapper alone. *)
Lemma openFile_mode (fname s : string) (w : LuaWrapper) :
  (In s output_modes ->
     match LuaWrapperOpenFile fname s w with
     | Ok _ w' | Raise _ w' => m_status w' = Some "_OUTPUT"
     | Undefined | Diverge => True
     end)
  /\ (In s input_modes ->
     match LuaWrapperOpenFile fname s w with
     | Ok _ w' | Raise _ w' => m_status w' = Some "_INPUT"
     | Undefined | Diverge => True
     end)
  /\ (~ In s output_modes -> ~ In s input_modes ->
      LuaWrapperOpenFile fname s w = Ok 0 w).
Proof.
  assert (Hset : forall tag,
            match (modify (set_status tag) ;; open_with_lua fname s) w with
            | Ok _ w' | Raise _ w' => m_status w' = Some tag
            | Undefined | Diverge => True
            end).
  { intros tag. unfold bind at 1. unfold modify.
    pose proof (keeps_status_open_with_lua fname s (set_status tag w)) as Hk.
    destruct (open_with_lua fname s (set_status tag w)); cbn in *; trivial. }
  split; [|split].
  - intros Hin. cbn in Hin.
    destruct Hin as [<-|[<-|[<-|[<-|[<-|[<-|[]]]]]]]; apply (Hset "_OUTPUT").
  - intros Hin. cbn in Hin.
    destruct Hin as [<-|[<-|[<-|[]]]]; apply (Hset "_INPUT").
  - intros Hout Hin. unfold LuaWrapperOpenFile, strcmp0.
    unfold output_modes, input_modes in *. cbn [In] in *.
    repeat match goal with
           | |- context [String.eqb s ?m] =>
               let E := fresh "E" in
               destruct (String.eqb_spec s m) as [E|E];
                 [exfalso; subst; first [apply Hout; auto 10; fail | apply Hin; auto 10]|]
           end.
    reflexivity.
Qed.

(** The handle passed to [LuaWrapperCloseFile] plays no part. *)
Lemma closeFile_ignores_handle (fp fp' : Z) (w : LuaWrapper) :
  LuaWrapperCloseFile fp w = LuaWrapperCloseFile fp' w.
Proof. unfold LuaWrapperCloseFile. reflexivity. Qed.

(** C9 (defect in the code).  [LuaWrapperCloseFile] asks for the global
    variable whose name is the nine characters [io.close].  After
    [luaL_openlibs] the function lives in the field [close] of the
    global table [io]; no global has a dotted name, so the lookup yields
    nil, the protected call of nil fails, and the only effects are the
    error message left on the stack and the diagnostic: the heap is
    untouched and no function of the engine has run. *)
Theorem closeFile_calls_nil (fp : Z) (st : list TValue) (g : global_State)
    (s : option string) (c : list string) (hG : Table) :
  tables g !! l_gt g = Some hG ->
  luaH_get (node hG) (VString "io.close") = VNil ->
  luaT_gettm g (metatable hG) "__index" = VNil ->
  luaT_gettmbyobj g VNil "__call" = VNil ->
  LuaWrapperCloseFile fp (mkWrapper (mkLua st g) s c)
  = Ok tt (mkWrapper (mkLua (VString "attempt to call a nil value" :: st) g) s
             (call_diagnostic (Some "attempt to call a nil value")
                              (Some "attempt to call a nil value") :: c)).
Proof.
  intros Ht Hmiss Htm Hcall. unfold LuaWrapperCloseFile.
  rewrite (bind_Ok _ _ _ _ _ (getGlobal_absent "io.close" st g s c hG Ht Hmiss Htm)).
  assert (Hnil : luaD_call g VNil []
                 = Threw LUA_ERRRUN (VString "attempt to call a nil value") g)
    by (cbn [luaD_call]; rewrite Hcall; reflexivity).
  pose proof (callFunction_failure [] VNil st g g s c 0 0 _ _ eq_refl Hnil) as Hc.
  cbn [rev app] in Hc.
  unfold bind at 1. rewrite Hc. reflexivity.
Qed.

End Files.

(** * Further properties of the members *)

(** ** [moveToTop] *)

Section MoveToTop.
Context `{LuaEngine}.

(** [moveToTop(index)] with [index >= 0] makes the depth [index]: the
    values at the bottom-based indices up to the old depth stay where
    they are, the values above [index] are discarded, and every index
    beyond the old depth holds nil. *)
Theorem moveToTop_sets_depth (index : Z) (st : list TValue) (g : global_State)
    (s : option string) (c : list string) :
  0 <= index ->
  exists st',
    moveToTop index (mkWrapper (mkLua st g) s c) = Ok tt (mkWrapper (mkLua st' g) s c)
    /\ lua_gettop (mkLua st' g) = index
    /\ forall i, 1 <= i <= index ->
         index2value (mkLua st' g) i
         = if i <=? lua_gettop (mkLua st g) then index2value (mkLua st g) i else Some VNil.
Proof.
  intros Hidx.
  set (n := length st). set (k := Z.to_nat index).
  exists (replicate (k - n) VNil ++ drop (n - k) st)%list.
  assert (Hlen : length (replicate (k - n) VNil ++ drop (n - k) st)%list = k)
    by (rewrite length_app, length_replicate, length_drop; fold n; lia).
  split; [|split].
  - unfold moveToTop, withL, zoom, lua_settop. cbn [m_luastate stack].
    replace (0 <=? index) with true by (symmetry; apply Z.leb_le; lia).
    reflexivity.
  - unfold lua_gettop. cbn [stack]. rewrite Hlen. unfold k. lia.
  - intros i Hi. unfold index2value, index2adr, lua_gettop. cbn [stack].
    rewrite Hlen. fold n.
    replace (i <? 0) with false by (symmetry; apply Z.ltb_ge; lia).
    replace (0 <? i) with true by (symmetry; apply Z.ltb_lt; lia).
    replace (i <=? Z.of_nat k) with true by (symmetry; apply Z.leb_le; unfold k; lia).
    cbn [andb].
    assert (Hk : Z.of_nat k = index) by (unfold k; lia).
    destruct (i <=? Z.of_nat n) eqn:E.
    + apply Z.leb_le in E. cbn [andb].
      destruct (le_lt_dec k n) as [Hkn|Hkn].
      * replace (k - n)%nat with 0%nat by lia. cbn [replicate app].
        rewrite lookup_drop. f_equal. lia.
      * rewrite lookup_app_r by (rewrite length_replicate; lia).
        rewrite length_replicate.
        replace (n - k)%nat with 0%nat by lia. rewrite drop_0. f_equal. lia.
    + apply Z.leb_gt in E.
      rewrite lookup_app_l by (rewrite length_replicate; lia).
      apply lookup_replicate_2. lia.
Qed.

(** [moveToTop(-n-1)] removes exactly the [n] topmost values; with
    [n = 1] it is the removal of one value, with [n = 0] it does nothing. *)
Theorem moveToTop_pops (removed rest : list TValue) (g : global_State)
    (s : option string) (c : list string) :
  moveToTop (- Z.of_nat (length removed) - 1) (mkWrapper (mkLua (removed ++ rest) g) s c)
  = Ok tt (mkWrapper (mkLua rest g) s c).
Proof.
  unfold moveToTop, withL, zoom, lua_settop. cbn [m_luastate stack].
  replace (0 <=? - Z.of_nat (length removed) - 1) with false
    by (symmetry; apply Z.leb_gt; lia).
  replace (- (- Z.of_nat (length removed) - 1 + 1)) with (Z.of_nat (length removed)) by lia.
  replace (Z.of_nat (length removed) <=? Z.of_nat (length (removed ++ rest))) with true
    by (symmetry; apply Z.leb_le; rewrite length_app; lia).
  rewrite Nat2Z.id, drop_app_length. reflexivity.
Qed.

End MoveToTop.

(** ** Globals *)

Section Globals.
Context `{LuaEngine}.

(** A table of globals without metatable is read and written directly. *)
Lemma getGlobal_plain (name : string) (st : list TValue) (g : global_State)
    (s : option string) (c : list string) (hG : Table) :
  tables g !! l_gt g = Some hG -> metatable hG = None ->
  getGlobal name (mkWrapper (mkLua st g) s c)
  = Ok tt (mkWrapper (mkLua (luaH_get (node hG) (VString name) :: st) g) s c).
Proof.
  intros Ht Hm. unfold getGlobal, withL, zoom, lua_getglobal. cbn [m_luastate l_G stack].
  rewrite (luaV_gettable_raw g (l_gt g) hG (VString name) Ht); [reflexivity|].
  right. rewrite Hm. reflexivity.
Qed.

Lemma setGlobal_plain (name : string) (v : TValue) (rest : list TValue) (g : global_State)
    (s : option string) (c : list string) (hG : Table) :
  tables g !! l_gt g = Some hG -> metatable hG = None ->
  setGlobal name (mkWrapper (mkLua (v :: rest) g) s c)
  = Ok tt (mkWrapper (mkLua rest (table_store (l_gt g) hG (VString name) v g)) s c).
Proof.
  intros Ht Hm. unfold setGlobal, withL, zoom, lua_setglobal. cbn [m_luastate l_G stack].
  rewrite (luaV_settable_raw g (l_gt g) hG (VString name) v Ht Hm eq_refl eq_refl).
  reflexivity.
Qed.

Lemma globals_after_store (hG : Table) (k v : TValue) (g : global_State) :
  tables (table_store (l_gt g) hG k v g) !! l_gt (table_store (l_gt g) hG k v g)
  = Some (mkTable (node_store (node hG) k v) (metatable hG)).
Proof. apply tables_table_store. Qed.

(** [setGlobal(name)] followed by [getGlobal(name)], on a table of
    globals without metatable, brings the value back to the top of the
    stack (nil included) and leaves the depth as it was. *)
Theorem setGlobal_getGlobal (name : string) (v : TValue) (rest : list TValue)
    (g : global_State) (s : option string) (c : list string) (hG : Table) :
  tables g !! l_gt g = Some hG -> metatable hG = None ->
  (setGlobal name ;; getGlobal name) (mkWrapper (mkLua (v :: rest) g) s c)
  = Ok tt (mkWrapper (mkLua (v :: rest) (table_store (l_gt g) hG (VString name) v g)) s c).
Proof.
  intros Ht Hm.
  rewrite (bind_Ok _ _ _ _ _ (setGlobal_plain name v rest g s c hG Ht Hm)).
  rewrite (getGlobal_plain name rest _ s c _ (globals_after_store hG _ _ g) Hm).
  cbn [node]. rewrite luaH_get_store_same by apply rawequal_string_refl.
  reflexivity.
Qed.

(** Assigning one global does not change what another name reads. *)
Theorem setGlobal_other_name (name name' : string) (v : TValue) (rest : list TValue)
    (g : global_State) (s : option string) (c : list string) (hG : Table) :
  tables g !! l_gt g = Some hG -> metatable hG = None ->
  name <> name' ->
  getGlobal name' (mkWrapper (mkLua rest g) s c)
  = Ok tt (mkWrapper (mkLua (luaH_get (node hG) (VString name') :: rest) g) s c)
  /\ (setGlobal name ;; getGlobal name') (mkWrapper (mkLua (v :: rest) g) s c)
     = Ok tt (mkWrapper (mkLua (luaH_get (node hG) (VString name') :: rest)
                               (table_store (l_gt g) hG (VString name) v g)) s c).
Proof.
  intros Ht Hm Hne. split.
  - apply getGlobal_plain; assumption.
  - rewrite (bind_Ok _ _ _ _ _ (setGlobal_plain name v rest g s c hG Ht Hm)).
    rewrite (getGlobal_plain name' rest _ s c _ (globals_after_store hG _ _ g) Hm).
    cbn [node]. rewrite luaH_get_store_other; [reflexivity|].
    cbn [luaO_rawequalObj]. apply String.eqb_neq. exact Hne.
Qed.

Lemma doesFuncExist_plain (name : string) (st : list TValue) (g : global_State)
    (s : option string) (c : list string) (hG : Table) :
  tables g !! l_gt g = Some hG -> metatable hG = None ->
  doesFuncExist name (mkWrapper (mkLua st g) s c)
  = Ok (match luaH_get (node hG) (VString name) with VFunction _ => 1 | _ => 0 end)
       (mkWrapper (mkLua [] g) s c).
Proof.
  intros Ht Hm. rewrite doesFuncExist_clears_stack.
  rewrite (getGlobal_plain name st g s c hG Ht Hm).
  cbn [m_luastate]. rewrite lua_isfunction_top.
  destruct (luaH_get (node hG) (VString name)); reflexivity.
Qed.

(** [doesFuncExist(name)], on a table of globals without metatable,
    answers 1 exactly when the global holds a function; the heap is
    untouched and the stack is left empty. *)
Theorem doesFuncExist_answer (name : string) (st : list TValue) (g : global_State)
    (s : option string) (c : list string) (hG : Table) :
  tables g !! l_gt g = Some hG -> metatable hG = None ->
  doesFuncExist name (mkWrapper (mkLua st g) s c)
  = Ok (match luaH_get (node hG) (VString name) with VFunction _ => 1 | _ => 0 end)
       (mkWrapper (mkLua [] g) s c).
Proof.
  intros Ht Hm. rewrite doesFuncExist_clears_stack.
  rewrite (getGlobal_plain name st g s c hG Ht Hm).
  cbn [m_luastate]. rewrite lua_isfunction_top.
  destruct (luaH_get (node hG) (VString name)); reflexivity.
Qed.

(** [lua_register] pushes the function and stores it: [registerFunc] is
    [setGlobal] on the stack with the function on top. *)
Lemma registerFunc_unfold (name : string) (f : positive) (st : list TValue)
    (g : global_State) (s : option string) (c : list string) :
  registerFunc name f (mkWrapper (mkLua st g) s c)
  = setGlobal name (mkWrapper (mkLua (VFunction f :: st) g) s c).
Proof.
  unfold registerFunc, setGlobal, withL, zoom, lua_register, lua_pushcfunction, lua_push,
    modify, bind.
  cbn [m_luastate]. unfold set_stack. cbn [stack l_G].
  destruct (lua_setglobal name (mkLua (VFunction f :: st) g)) as [[] L'|e L'| |];
    reflexivity.
Qed.

(** [registerFunc(name, f)] leaves the stack as it was and binds the
    global: afterwards [getGlobal(name)] pushes the function [f] and
    [doesFuncExist(name)] answers 1. *)
Theorem registerFunc_binds (name : string) (f : positive) (st : list TValue)
    (g : global_State) (s : option string) (c : list string) (hG : Table) :
  tables g !! l_gt g = Some hG -> metatable hG = None ->
  let g' := table_store (l_gt g) hG (VString name) (VFunction f) g in
  registerFunc name f (mkWrapper (mkLua st g) s c) = Ok tt (mkWrapper (mkLua st g') s c)
  /\ getGlobal name (mkWrapper (mkLua st g') s c)
     = Ok tt (mkWrapper (mkLua (VFunction f :: st) g') s c)
  /\ doesFuncExist name (mkWrapper (mkLua st g') s c) = Ok 1 (mkWrapper (mkLua [] g') s c).
Proof.
  intros Ht Hm g'.
  assert (Hget : luaH_get (node_store (node hG) (VString name) (VFunction f)) (VString name)
                 = VFunction f)
    by (apply luaH_get_store_same, rawequal_string_refl).
  split; [|split].
  - rewrite registerFunc_unfold. apply (setGlobal_plain name (VFunction f) st g s c hG Ht Hm).
  - rewrite (getGlobal_plain name st g' s c _ (globals_after_store hG _ _ g) Hm).
    cbn [node]. rewrite Hget. reflexivity.
  - rewrite (doesFuncExist_plain name st g' s c _ (globals_after_store hG _ _ g) Hm).
    cbn [node]. rewrite Hget. reflexivity.
Qed.

End Globals.

(** ** Writing and reading a table *)

Section TableWrites.
Context `{LuaEngine}.

(** Pushing a key and a value and calling [setTable], with a table
    without metatable at the top. *)
Lemma set_field_plain (key : host_value) (val : host_value) (a : positive) (h : Table)
    (rest : list TValue) (g : global_State) (s : option string) (c : list string) :
  tables g !! a = Some h -> metatable h = None ->
  ttisnil (pushed key) = false -> key_isnan (pushed key) = false ->
  (push key ;; push val ;; setTable) (mkWrapper (mkLua (VTable a :: rest) g) s c)
  = Ok tt (mkWrapper (mkLua (VTable a :: rest)
                            (table_store a h (pushed key) (pushed val) g)) s c).
Proof.
  intros Ha Hm Hk Hnan.
  rewrite (bind_Ok _ _ _ _ _ (push_ok key _ g s c)).
  rewrite (bind_Ok _ _ _ _ _ (push_ok val _ g s c)).
  apply setTable_raw; assumption.
Qed.

(** The last write to a field wins: after two assignments to the same
    string key, [pushTableValue(key)] pushes the second value; when that
    value is nil the field is gone and nil is pushed. *)
Theorem setTable_overwrites (k : string) (v1 v2 : host_value) (a : positive) (h : Table)
    (rest : list TValue) (g : global_State) (s : option string) (c : list string) :
  tables g !! a = Some h -> metatable h = None ->
  exists g',
    (pushString k ;; push v1 ;; setTable ;; pushString k ;; push v2 ;; setTable ;;
     pushTableValue k) (mkWrapper (mkLua (VTable a :: rest) g) s c)
    = Ok tt (mkWrapper (mkLua (pushed v2 :: VTable a :: rest) g') s c)
    /\ tables g' !! a
       = Some (mkTable (node_store (node_store (node h) (VString k) (pushed v1))
                                   (VString k) (pushed v2)) None).
Proof.
  intros Ha Hm.
  set (g1 := table_store a h (VString k) (pushed v1) g).
  set (h1 := mkTable (node_store (node h) (VString k) (pushed v1)) (metatable h)).
  assert (Ha1 : tables g1 !! a = Some h1) by apply tables_table_store.
  set (g2 := table_store a h1 (VString k) (pushed v2) g1).
  set (h2 := mkTable (node_store (node h1) (VString k) (pushed v2)) (metatable h1)).
  assert (Ha2 : tables g2 !! a = Some h2) by apply tables_table_store.
  exists g2. split.
  - rewrite (bind_Ok _ _ _ _ _ (pushString_ok k _ g s c)).
    rewrite (bind_Ok _ _ _ _ _ (push_ok v1 _ g s c)).
    rewrite (bind_Ok _ _ _ _ _
               (setTable_raw (pushed v1) (VString k) a rest g s c h Ha Hm eq_refl eq_refl)).
    fold g1.
    rewrite (bind_Ok _ _ _ _ _ (pushString_ok k _ g1 s c)).
    rewrite (bind_Ok _ _ _ _ _ (push_ok v2 _ g1 s c)).
    rewrite (bind_Ok _ _ _ _ _
               (setTable_raw (pushed v2) (VString k) a rest g1 s c h1 Ha1 Hm eq_refl eq_refl)).
    fold g2.
    rewrite (pushTableValue_raw k a rest g2 s c h2 Ha2)
      by (right; unfold h2, h1; cbn [metatable]; rewrite Hm; reflexivity).
    unfold h2. cbn [node]. rewrite luaH_get_store_same by apply rawequal_string_refl.
    reflexivity.
  - rewrite Ha2. unfold h2, h1. cbn [node metatable]. rewrite Hm. reflexivity.
Qed.

(** Fields are independent: an assignment under a string key, or under
    an [int] key, does not change what [pushTableValue] reads under a
    different string key; in particular the number 1 and the string "1"
    are different keys. *)
Theorem setTable_other_key (k k' : string) (i : Z) (v : host_value) (a : positive)
    (h : Table) (rest : list TValue) (g : global_State) (s : option string)
    (c : list string) :
  tables g !! a = Some h -> metatable h = None ->
  k <> k' -> int_range i ->
  (exists g',
     (pushString k ;; push v ;; setTable ;; pushTableValue k')
       (mkWrapper (mkLua (VTable a :: rest) g) s c)
     = Ok tt (mkWrapper (mkLua (luaH_get (node h) (VString k') :: VTable a :: rest) g') s c))
  /\ (exists g',
     (pushInt i ;; push v ;; setTable ;; pushTableValue k')
       (mkWrapper (mkLua (VTable a :: rest) g) s c)
     = Ok tt (mkWrapper (mkLua (luaH_get (node h) (VString k') :: VTable a :: rest) g') s c)).
Proof.
  intros Ha Hm Hne Hi.
  assert (Hr : - 2 ^ 53 < i < 2 ^ 53)
    by (unfold int_range, INT_MIN, INT_MAX in Hi; lia).
  assert (Hother : forall key : host_value,
            ttisnil (pushed key) = false -> key_isnan (pushed key) = false ->
            luaO_rawequalObj (pushed key) (VString k') = false ->
            (push key ;; push v ;; setTable ;; pushTableValue k')
              (mkWrapper (mkLua (VTable a :: rest) g) s c)
            = Ok tt (mkWrapper (mkLua (luaH_get (node h) (VString k') :: VTable a :: rest)
                                      (table_store a h (pushed key) (pushed v) g)) s c)).
  { intros key Hk Hnan Hdiff.
    rewrite (bind_Ok _ _ _ _ _ (push_ok key _ g s c)).
    rewrite (bind_Ok _ _ _ _ _ (push_ok v _ g s c)).
    rewrite (bind_Ok _ _ _ _ _
               (setTable_raw (pushed v) (pushed key) a rest g s c h Ha Hm Hk Hnan)).
    rewrite (pushTableValue_raw k' a rest _ s c _ (tables_table_store a h _ _ g))
      by (right; cbn [metatable]; rewrite Hm; reflexivity).
    cbn [node]. rewrite luaH_get_store_other by exact Hdiff. reflexivity. }
  split.
  - eexists. apply (Hother (HString k)); try reflexivity.
    cbn [pushed luaO_rawequalObj]. apply String.eqb_neq. exact Hne.
  - eexists. apply (Hother (HInt i)); try reflexivity.
    apply key_isnan_int. exact Hr.
Qed.

(** A nil key is refused: [setTable] raises the engine's error, and the
    table, the key and the value stay where they were. *)
Theorem setTable_nil_key (v : host_value) (a : positive) (h : Table)
    (rest : list TValue) (g : global_State) (s : option string) (c : list string) :
  tables g !! a = Some h ->
  luaH_get (node h) VNil = VNil ->
  (pushNil ;; push v ;; setTable) (mkWrapper (mkLua (VTable a :: rest) g) s c)
  = Raise (VString "table index is nil")
          (mkWrapper (mkLua (pushed v :: VNil :: VTable a :: rest) g) s c).
Proof.
  intros Ha Hnil.
  change pushNil with (push HNil).
  rewrite (bind_Ok _ _ _ _ _ (push_ok HNil _ g s c)).
  rewrite (bind_Ok _ _ _ _ _ (push_ok v _ g s c)).
  change (pushed HNil) with VNil.
  unfold setTable. lua_run. rewrite lua_settable_third.
  unfold luaV_settable, MAXTAGLOOP. rewrite luaV_settable_loop_S. cbv zeta.
  rewrite Ha, Hnil. reflexivity.
Qed.

End TableWrites.

(** ** [stackDump] *)

Section StackDump.
Context `{LuaEngine}.

Lemma tostring_slot_middle (done : list TValue) (v : TValue) (todo : list TValue) :
  tostring_slot (length done) (done ++ v :: todo) = (done ++ tostring_value v :: todo)%list.
Proof.
  unfold tostring_slot. rewrite list_lookup_middle by reflexivity.
  destruct v; try reflexivity.
  cbn [tostring_value].
  rewrite insert_app_r_alt by lia. rewrite Nat.sub_diag. reflexivity.
Qed.

Lemma stackDump_loop_spec (todo done : list TValue) (i : Z) (g : global_State)
    (s : option string) (c : list string) :
  i = Z.of_nat (length done) + 1 ->
  stackDump_loop (length todo) i (mkWrapper (mkLua (done ++ todo) g) s c)
  = Ok tt (mkWrapper (mkLua (done ++ map tostring_value todo) g) s
             (rev (dump_lines i todo) ++ c)).
Proof.
  revert done i c.
  induction todo as [|v todo IH]; intros done i c Hi.
  - reflexivity.
  - cbn [length stackDump_loop map dump_lines].
    unfold bind at 1. unfold withL at 1, zoom. cbn [m_luastate].
    rewrite Hi. rewrite (lua_tostring_neg (Z.of_nat (length done)) _ ltac:(lia)).
    cbn [stack]. rewrite Nat2Z.id, list_lookup_middle by reflexivity.
    rewrite tostring_slot_middle.
    unfold bind at 1. unfold printf at 1, modify.
    unfold set_luastate, set_stack. cbn [m_luastate m_status console l_G].
    replace (done ++ tostring_value v :: todo)%list
      with ((done ++ [tostring_value v]) ++ todo)%list
      by (rewrite <- app_assoc; reflexivity).
    rewrite (IH (done ++ [tostring_value v])%list (Z.of_nat (length done) + 1 + 1))
      by (rewrite length_app; cbn [length]; lia).
    cbn [rev]. rewrite <- !app_assoc. reflexivity.
Qed.

(** [stackDump] is not a pure query: it keeps the depth and the heap,
    but every number on the stack is replaced, in place, by its text.
    It prints the depth and then one line per value, from the top of the
    stack down, numbered from 1. *)
Theorem stackDump_effect (st : list TValue) (g : global_State)
    (s : option string) (c : list string) :
  stackDump (mkWrapper (mkLua st g) s c)
  = Ok tt (mkWrapper (mkLua (map tostring_value st) g) s
             (rev (dump_lines 1 st)
              ++ ("Number of Elements on Stack: " ++ show_int (Z.of_nat (length st)) ++ nl)%string
              :: c))
  /\ length (map tostring_value st) = length st
  /\ (forall i n, st !! i = Some (VNumber n) ->
        map tostring_value st !! i = Some (VString (lua_number2str n))).
Proof.
  split; [|split].
  - unfold stackDump. unfold bind at 1. unfold gets at 1.
    unfold bind at 1. unfold printf at 1, modify. unfold lua_gettop.
    cbn [m_luastate stack m_status console]. rewrite Nat2Z.id.
    apply (stackDump_loop_spec st [] 1 g s). reflexivity.
  - apply length_map.
  - intros i n Hi. rewrite list_lookup_fmap, Hi. reflexivity.
Qed.

End StackDump.

(** ** Failed calls *)

Section FailedCalls.
Context `{LuaEngine}.

(** What the diagnostic of a failed call shows as the function.  The
    function and its arguments are gone when [callFunction] reads index
    [-(nargs+1)]: with no arguments that index is the error value itself,
    so the diagnostic shows the error text twice; with [nargs >= 1]
    arguments it is a value of the caller, [nargs] positions below the
    error value, and when that value is a number it is replaced on the
    stack by its text. *)
Theorem failed_call_diagnostic (args : list TValue) (func : TValue) (base : list TValue)
    (g g' : global_State) (s : option string) (c : list string) (nresults : Z)
    (st : err_status) (e : TValue) :
  luaD_call g func args = Threw st e g' ->
  let w := mkWrapper (mkLua (rev args ++ func :: base) g) s c in
  (args = [] ->
     callFunction 0 nresults w
     = Ok 0 (mkWrapper (mkLua (tostring_value e :: base) g') s
               (call_diagnostic (tostring_text e) (tostring_text e) :: c)))
  /\ (forall i n, length args = S i -> base !! i = Some (VNumber n) ->
        callFunction (Z.of_nat (length args)) nresults w
        = Ok 0 (mkWrapper
                  (mkLua (tostring_value e :: <[i := VString (lua_number2str n)]> base) g') s
                  (call_diagnostic (Some (lua_number2str n)) (tostring_text e) :: c))).
Proof.
  intros Hcall w. subst w. split.
  - intros ->.
    exact (callFunction_failure [] func base g g' s c 0 nresults st e eq_refl Hcall).
  - intros i n Hlen Hi.
    rewrite (callFunction_failure args func base g g' s c _ nresults st e eq_refl Hcall).
    rewrite Nat2Z.id, Hlen. unfold tostring_slot. rewrite Hi. reflexivity.
Qed.

(** Calling a value that is no function and has no [__call] metamethod
    does not raise: [callFunction] returns 0, the heap is untouched, and
    the message naming the kind of the value tops a stack with as many
    values below it as before the value and the arguments were pushed. *)
Theorem call_of_non_function (args : list TValue) (func : TValue) (base : list TValue)
    (g : global_State) (s : option string) (c : list string) (nresults : Z) :
  (forall f, func <> VFunction f) ->
  luaT_gettmbyobj g func "__call" = VNil ->
  exists base' text,
    callFunction (Z.of_nat (length args)) nresults
      (mkWrapper (mkLua (rev args ++ func :: base) g) s c)
    = Ok 0 (mkWrapper
              (mkLua (VString ("attempt to call a " ++ luaT_typename (Some func) ++ " value")
                        :: base') g) s (text :: c))
    /\ length base' = length base.
Proof.
  intros Hfun Hcall.
  assert (Hd : luaD_call g func args
               = Threw LUA_ERRRUN
                   (VString ("attempt to call a " ++ luaT_typename (Some func) ++ " value")) g).
  { destruct func; cbn [luaD_call]; try (rewrite Hcall; reflexivity).
    exfalso. eapply Hfun. reflexivity. }
  eexists. eexists. split.
  - exact (callFunction_failure args func base g g s c _ nresults _ _ eq_refl Hd).
  - destruct (Z.to_nat (Z.of_nat (length args))); [reflexivity | apply length_tostring_slot].
Qed.

End FailedCalls.

(** ** The registry between references *)

Section RefFrame.
Context `{LuaEngine}.

Lemma numeq_same_integer (x y : lua_Number) :
  luai_numeq x y = true -> lua_number2integer x = lua_number2integer y.
Proof.
  unfold luai_numeq, SFeqb, SFcompare.
  destruct x as [sx|sx| |sx mx ex], y as [sy|sy| |sy my ey]; intros Hc;
    try discriminate; try reflexivity;
    try (destruct sx; discriminate); try (destruct sy; discriminate).
  destruct sx, sy; try discriminate;
    destruct (Z.compare_spec ex ey) as [->| |]; try discriminate;
    change (Pos.compare_cont Eq mx my) with (Pos.compare mx my) in Hc;
    destruct (Pos.compare_spec mx my) as [->| |]; try discriminate; reflexivity.
Qed.

Lemma rawequal_int_distinct (a b : Z) :
  - 2 ^ 53 < a < 2 ^ 53 -> - 2 ^ 53 < b < 2 ^ 53 -> a <> b ->
  luaO_rawequalObj (VNumber (cast_num a)) (VNumber (cast_num b)) = false.
Proof.
  intros Ha Hb Hne. cbn [luaO_rawequalObj].
  destruct (luai_numeq (cast_num a) (cast_num b)) eqn:E; [|reflexivity].
  apply numeq_same_integer in E. rewrite !cast_num_exact in E by assumption. contradiction.
Qed.

(** [pop2Ref] and [pushRef] touch two slots of the registry at most: the
    slot of the key and slot 0, the head of the free list.  Every other
    reference keeps its value. *)
Theorem references_frame (v : TValue) (rest : list TValue) (g : global_State)
    (s : option string) (c : list string) (h : Table) :
  tables g !! l_registry g = Some h ->
  v <> VNil ->
  let w := mkWrapper (mkLua (v :: rest) g) s c in
  (exists k w1,
     pop2Ref w = Ok k w1
     /\ stack (m_luastate w1) = rest
     /\ registry_slot w1 k = v
     /\ forall j, int_range j -> j <> k -> j <> FREELIST_REF ->
          registry_slot w1 j = registry_slot w j)
  /\ (forall k, 0 <= k -> int_range k ->
      exists w2,
        pushRef k w = Ok tt w2
        /\ stack (m_luastate w2) = registry_slot w k :: v :: rest
        /\ forall j, int_range j -> j <> k -> j <> FREELIST_REF ->
             registry_slot w2 j = registry_slot w j).
Proof.
  intros Ht Hv w. subst w.
  assert (Hw : forall st' j, registry_slot (mkWrapper (mkLua st' g) s c) j
                             = luaH_getnum (node h) j).
  { intros st' j. unfold registry_slot. cbn [m_luastate l_G]. rewrite Ht. reflexivity. }
  assert (Hwide : forall z, int_range z -> - 2 ^ 53 < z < 2 ^ 53)
    by (unfold int_range, INT_MIN, INT_MAX; intros; lia).
  assert (Hzero : - 2 ^ 53 < FREELIST_REF < 2 ^ 53) by (unfold FREELIST_REF; lia).
  split.
  - assert (Href : pop2Ref (mkWrapper (mkLua (v :: rest) g) s c)
                   = match luaL_ref (l_registry g) (mkLua (v :: rest) g) with
                     | Ok a L => Ok a (mkWrapper L s c)
                     | Raise e L => Raise e (mkWrapper L s c)
                     | Undefined => Undefined
                     | Diverge => Diverge
                     end) by reflexivity.
    rewrite (luaL_ref_ok (l_registry g) h v rest g Ht Hv) in Href. cbv zeta in Href.
    pose proof (to_int_range (match luaV_tonumber (Some (luaH_getnum (node h) FREELIST_REF)) with
                              | Some n => lua_number2integer n
                              | None => 0
                              end)) as Hhead.
    fold (freelist_head h) in Hhead.
    pose proof (to_int_range (Z.of_nat (luaH_getn h))) as Hlen.
    unfold int_range, INT_MIN, INT_MAX in Hhead, Hlen.
    destruct (negb (freelist_head h =? 0)).
    + eexists. eexists. split; [exact Href|]. split; [reflexivity|].
      assert (Hk : - 2 ^ 53 < freelist_head h < 2 ^ 53) by lia.
      split.
      * rewrite registry_slot_store by reflexivity.
        apply luaH_get_store_same, rawequal_int_refl. exact Hk.
      * intros j Hj Hjk Hj0. rewrite registry_slot_store by reflexivity. cbn [node].
        rewrite luaH_get_store_other
          by (apply rawequal_int_distinct; auto).
        rewrite luaH_get_store_other
          by (apply rawequal_int_distinct; auto).
        rewrite Hw. reflexivity.
    + eexists. eexists. split; [exact Href|]. split; [reflexivity|].
      assert (Hk : - 2 ^ 53 < to_int (Z.of_nat (luaH_getn h)) + 1 < 2 ^ 53) by lia.
      split.
      * rewrite registry_slot_store by reflexivity.
        apply luaH_get_store_same, rawequal_int_refl. exact Hk.
      * intros j Hj Hjk Hj0. rewrite registry_slot_store by reflexivity.
        rewrite luaH_get_store_other
          by (apply rawequal_int_distinct; auto).
        rewrite Hw. reflexivity.
  - intros k Hk0 Hk. eexists.
    split; [apply (pushRef_ok k (v :: rest) g s c h Ht Hk0)|].
    split; [cbn [m_luastate stack]; rewrite Hw; reflexivity|].
    intros j Hj Hjk Hj0. rewrite registry_slot_unref.
    rewrite luaH_get_store_other by (apply rawequal_int_distinct; auto).
    rewrite luaH_get_store_other by (apply rawequal_int_distinct; auto).
    rewrite Hw. reflexivity.
Qed.

(** A released key is the next one handed out: after [pushRef(k)] with a
    positive key, detaching another value that is not nil returns [k]
    again, stores the value under it, and puts the head of the free list
    back to what it was before the release. *)
Theorem released_key_is_reused (k : Z) (val : host_value) (st : list TValue)
    (g : global_State) (s : option string) (c : list string) (h : Table) :
  tables g !! l_registry g = Some h ->
  0 < k -> int_range k ->
  pushed val <> VNil ->
  let w := mkWrapper (mkLua st g) s c in
  exists w3,
    (pushRef k ;; push val ;; pop2Ref) w = Ok k w3
    /\ stack (m_luastate w3) = registry_slot w k :: st
    /\ registry_slot w3 k = pushed val
    /\ registry_slot w3 FREELIST_REF = registry_slot w FREELIST_REF.
Proof.
  intros Ht Hk0 Hk Hval w. subst w.
  assert (Hr : - 2 ^ 53 < k < 2 ^ 53)
    by (unfold int_range, INT_MIN, INT_MAX in Hk; lia).
  assert (Hne : luaO_rawequalObj (VNumber (cast_num FREELIST_REF)) (VNumber (cast_num k)) = false)
    by (apply rawequal_int_distinct; unfold FREELIST_REF; lia).
  assert (Hne' : luaO_rawequalObj (VNumber (cast_num k)) (VNumber (cast_num FREELIST_REF)) = false)
    by (apply rawequal_int_distinct; unfold FREELIST_REF; lia).
  assert (Hw : forall j, registry_slot (mkWrapper (mkLua st g) s c) j = luaH_getnum (node h) j).
  { intros j. unfold registry_slot. cbn [m_luastate l_G]. rewrite Ht. reflexivity. }
  set (link := luaH_getnum (node h) FREELIST_REF).
  set (g2 := unref_store (l_registry g) h k g).
  set (h2 := mkTable (node_store (node_store (node h) (VNumber (cast_num k)) link)
                                 (VNumber (cast_num FREELIST_REF)) (VNumber (cast_num k)))
                     (metatable h)).
  assert (Ht2 : tables g2 !! l_registry g = Some h2) by apply tables_table_store.
  assert (Hhead : freelist_head h2 = k).
  { unfold freelist_head, luaH_getnum, h2. cbn [node].
    rewrite luaH_get_store_same by reflexivity. cbn [luaV_tonumber].
    rewrite cast_num_exact by exact Hr. apply to_int_id. exact Hk. }
  assert (Hlink : luaH_getnum (node h2) k = link).
  { unfold luaH_getnum, h2. cbn [node].
    rewrite luaH_get_store_other by exact Hne.
    apply luaH_get_store_same, rawequal_int_refl. exact Hr. }
  rewrite (bind_Ok _ _ _ _ _ (pushRef_ok k st g s c h Ht ltac:(lia))). fold g2.
  rewrite (bind_Ok _ _ _ _ _ (push_ok val _ g2 s c)).
  assert (Href : pop2Ref (mkWrapper (mkLua (pushed val :: luaH_getnum (node h) k :: st) g2) s c)
                 = match luaL_ref (l_registry g)
                           (mkLua (pushed val :: luaH_getnum (node h) k :: st) g2) with
                   | Ok a L => Ok a (mkWrapper L s c)
                   | Raise e L => Raise e (mkWrapper L s c)
                   | Undefined => Undefined
                   | Diverge => Diverge
                   end) by reflexivity.
  rewrite (luaL_ref_ok (l_registry g) h2 (pushed val) _ g2 Ht2 Hval) in Href.
  cbv zeta in Href. rewrite Hhead in Href.
  replace (negb (k =? 0)) with true in Href
    by (symmetry; apply negb_true_iff, Z.eqb_neq; lia).
  rewrite Hlink in Href.
  eexists. split; [exact Href|].
  split; [cbn [m_luastate stack]; rewrite Hw; reflexivity|].
  split.
  - rewrite registry_slot_store by reflexivity.
    apply luaH_get_store_same, rawequal_int_refl. exact Hr.
  - rewrite registry_slot_store by reflexivity. cbn [node].
    rewrite luaH_get_store_other by exact Hne'.
    rewrite luaH_get_store_same by reflexivity.
    rewrite Hw. reflexivity.
Qed.

End RefFrame.

(** ** Opening a file through a bound global *)

Section OpenBound.
Context `{LuaEngine}.

Lemma openFile_supported (fname s : string) (w : LuaWrapper) :
  In s output_modes \/ In s input_modes ->
  LuaWrapperOpenFile fname s w = open_with_lua fname s (set_status (mode_tag s) w).
Proof.
  unfold output_modes, input_modes. cbn [In].
  intros [Hin|Hin];
    repeat (destruct Hin as [<-|Hin]; [reflexivity|]); destruct Hin.
Qed.

(** When a function is bound to the global named [io.open] (in a table
    of globals without metatable), [LuaWrapperOpenFile] with a supported
    mode records the tag, calls that function with the file name and the
    mode, and looks at its first result only: a userdata is returned as
    the handle and the stack is back to where it was; anything else -
    the nil of a failed open - is not returned as a null handle but
    raised as a type mismatch, with that value left on the stack. *)
Theorem openFile_when_bound (fname s : string) (f : positive) (rets : list TValue)
    (st : list TValue) (g g' : global_State) (s0 : option string) (c : list string)
    (hG : Table) :
  In s output_modes \/ In s input_modes ->
  tables g !! l_gt g = Some hG -> metatable hG = None ->
  luaH_get (node hG) (VString "io.open") = VFunction f ->
  luaD_run f [VString fname; VString s] g = Returned rets g' ->
  LuaWrapperOpenFile fname s (mkWrapper (mkLua st g) s0 c)
  = match hd VNil rets with
    | VUserdata p | VLightUserdata p =>
        Ok p (mkWrapper (mkLua st g') (Some (mode_tag s)) c)
    | v =>
        Raise (VString userdata_mismatch)
              (mkWrapper (mkLua (v :: st) g') (Some (mode_tag s)) c)
    end.
Proof.
  intros Hmode Ht Hm Hopen Hrun.
  rewrite (openFile_supported fname s _ Hmode).
  unfold open_with_lua, set_status. cbn [m_luastate m_status console].
  rewrite (bind_Ok _ _ _ _ _ (getGlobal_plain "io.open" st g _ c hG Ht Hm)). rewrite Hopen.
  rewrite (bind_Ok _ _ _ _ _ (pushString_ok fname _ g _ c)).
  rewrite (bind_Ok _ _ _ _ _ (pushString_ok s _ g _ c)).
  rewrite (bind_Ok _ _ _ _ _
             (callFunction_success [VString fname; VString s] (VFunction f) st g g'
                _ c 2 1 rets eq_refl ltac:(lia) Hrun)).
  change (Z.to_nat 1) with 1%nat.
  assert (Hadj : rev (adjust_results 1 rets) = [hd VNil rets])
    by (destruct rets; reflexivity).
  rewrite Hadj. cbn [app].
  unfold bind. rewrite popUserdata_top.
  destruct (hd VNil rets); reflexivity.
Qed.

(** [LuaWrapperCloseFile] never hands its argument on: the function
    bound to the global named [io.close] is run with no argument and its
    results are dropped.  When it succeeds the stack is as before; when
    it raises, the caller is told nothing, the diagnostic is printed and
    the error value is left on the stack. *)
Theorem closeFile_when_bound (fp : Z) (f : positive) (st : list TValue) (g : global_State)
    (s : option string) (c : list string) (hG : Table) :
  tables g !! l_gt g = Some hG -> metatable hG = None ->
  luaH_get (node hG) (VString "io.close") = VFunction f ->
  LuaWrapperCloseFile fp (mkWrapper (mkLua st g) s c)
  = match luaD_run f [] g with
    | Returned _ g' => Ok tt (mkWrapper (mkLua st g') s c)
    | Threw _ e g' =>
        Ok tt (mkWrapper (mkLua (tostring_value e :: st) g') s
                 (call_diagnostic (tostring_text e) (tostring_text e) :: c))
    | NoReturn => Diverge
    end.
Proof.
  intros Ht Hm Hclose. unfold LuaWrapperCloseFile.
  rewrite (bind_Ok _ _ _ _ _ (getGlobal_plain "io.close" st g s c hG Ht Hm)). rewrite Hclose.
  destruct (luaD_run f [] g) as [rets g'|status e g'|] eqn:Hrun.
  - rewrite (bind_Ok _ _ _ _ _
               (callFunction_success [] (VFunction f) st g g' s c 0 0 rets
                  eq_refl ltac:(lia) Hrun)).
    reflexivity.
  - rewrite (bind_Ok _ _ _ _ _
               (callFunction_failure [] (VFunction f) st g g' s c 0 0 status e eq_refl Hrun)).
    reflexivity.
  - pose proof (callFunction_noreturn [] (VFunction f) st g s c 0 0 eq_refl Hrun) as Hn.
    cbn [rev app] in Hn. unfold bind. rewrite Hn. reflexivity.
Qed.

End OpenBound.

(** ** The reference of nil *)

Section NilReference.
Context `{LuaEngine}.

(** Detaching nil and redeeming the key changes nothing at all: the key
    is the constant [LUA_REFNIL], the registry is neither written by
    [pop2Ref] nor by [pushRef], and nil is back on the stack; the pair
    can be repeated at will. *)
Theorem nil_reference_roundtrip (rest : list TValue) (g : global_State)
    (s : option string) (c : list string) (h : Table) :
  tables g !! l_registry g = Some h ->
  luaH_getnum (node h) LUA_REFNIL = VNil ->
  pop2Ref (mkWrapper (mkLua (VNil :: rest) g) s c)
  = Ok LUA_REFNIL (mkWrapper (mkLua rest g) s c)
  /\ (k <- pop2Ref ;; pushRef k) (mkWrapper (mkLua (VNil :: rest) g) s c)
     = Ok tt (mkWrapper (mkLua (VNil :: rest) g) s c).
Proof.
  intros Ht Hslot. split.
  - apply detach_nil.
  - rewrite (bind_Ok _ _ _ _ _ (detach_nil rest g s c)).
    rewrite (pushRef_negative LUA_REFNIL rest g s c h Ht) by (unfold LUA_REFNIL; lia).
    rewrite Hslot. reflexivity.
Qed.

End NilReference.

(** * The code on concrete inputs

    Evaluations on the demonstration engine and heap of [Demo]. *)

#[local] Existing Instance Demo.engine.

(** C2, counterexample.  The string ["10"] is not a number, yet [popInt]
    does not fail on it: the engine reads it as the number 10. *)
Lemma popInt_accepts_numeric_string :
  ttype (VString "10") <> TNUMBER
  /\ popInt (Demo.state [VString "10"]) = Ok 10 (Demo.state []).
Proof. split; [discriminate | vm_compute; reflexivity]. Qed.

(** The same coercion the other way: [popString] on a number. *)
Lemma popString_accepts_number :
  popString (Demo.state [VNumber (cast_num 10)]) = Ok (Some "10") (Demo.state []).
Proof. vm_compute. reflexivity. Qed.

(** C3 (defect in the code), at a failing input.  One value is on the
    stack and no global is named [nonexistent]: [doesFuncExist] answers
    0, and the value that was on the stack is gone - the depth is 0
    after the call and was 1 before. *)
Theorem doesFuncExist_unbalanced :
  doesFuncExist "nonexistent" (Demo.state [VNumber (cast_num 1)]) = Ok 0 (Demo.state [])
  /\ lua_gettop (m_luastate (Demo.state [VNumber (cast_num 1)])) = 1
  /\ lua_gettop (m_luastate (Demo.state [])) = 0.
Proof.
  split; [|split; reflexivity].
  rewrite doesFuncExist_clears_stack.
  unfold Demo.state.
  rewrite (getGlobal_absent "nonexistent" _ Demo.heap None []
             (mkTable [(VString "io", VTable 3)] None)).
  - reflexivity.
  - vm_compute. reflexivity.
  - reflexivity.
  - reflexivity.
Qed.

(** C4, counterexample.  With [nresults = LUA_MULTRET] a successful call
    leaves all the results of the function, here two, so the depth does
    not grow by [nresults]. *)
Lemma callFunction_multret_leaves_all :
  callFunction 0 LUA_MULTRET (Demo.state [VFunction 1])
  = Ok 1 (Demo.state [VNumber (cast_num 2); VNumber (cast_num 1)])
  /\ Z.of_nat (length [VNumber (cast_num 2); VNumber (cast_num 1)])
     <> Z.of_nat (length (@nil TValue)) + LUA_MULTRET.
Proof. split; [vm_compute; reflexivity | discriminate]. Qed.

Lemma callFunction_contract_witness :
  0 = Z.of_nat (length (@nil TValue)) /\ 0 <= 2
  /\ callFunction 0 2 (Demo.state [VFunction 1])
     = Ok 1 (Demo.state [VNumber (cast_num 2); VNumber (cast_num 1)]).
Proof.
  split; [reflexivity|]. split; [lia|].
  exact (proj1 (@callFunction_contract Demo.engine [] (VFunction 1) [] Demo.heap None []
                  0 2 eq_refl ltac:(lia))).
Defined.

(** C5, counterexample.  The chunk of [raise.lua] raises a table: the
    call fails with status 1, but the value at the top of the stack is
    no message and the diagnostic carries no text of the engine. *)
Lemma doFile_error_without_text :
  doFile "raise.lua" (Demo.state [])
  = Ok 1 (mkWrapper (mkLua [VTable 5] Demo.heap) None [dofile_diagnostic "raise.lua" None])
  /\ tostring_text (VTable 5) = None.
Proof. split; [vm_compute; reflexivity | reflexivity]. Qed.

(** A file that cannot be loaded: status 1, the message on the stack and
    in the diagnostic, next to the path. *)
Lemma doFile_missing_script :
  doFile "missing.script" (Demo.state [])
  = Ok 1 (mkWrapper (mkLua [VString "cannot open missing.script"] Demo.heap) None
            [dofile_diagnostic "missing.script" (Some "cannot open missing.script")]).
Proof. vm_compute. reflexivity. Qed.

(** C6, counterexample.  For nil at the top, [pop2Ref] returns the fixed
    key [LUA_REFNIL]; [pushRef] of that key pushes nil and releases
    nothing, and a second [pushRef] pushes nil, the detached value,
    again. *)
Lemma reattach_nil_twice :
  pop2Ref (Demo.state [VNil]) = Ok LUA_REFNIL (Demo.state [])
  /\ pushRef LUA_REFNIL (Demo.state []) = Ok tt (Demo.state [VNil])
  /\ pushRef LUA_REFNIL (Demo.state [VNil]) = Ok tt (Demo.state [VNil; VNil]).
Proof. repeat split; vm_compute; reflexivity. Qed.

(** The other way a second [pushRef] brings the value back.  Two keys
    are handed out and released, so that the free list is 2, 1; the
    number 1 is then detached under the key 2, whose link is the number
    1: both redemptions of the key push the number 1. *)
Lemma reattach_link_twice :
  match (pushString "a" ;; pop2Ref ;; pushString "b" ;; pop2Ref ;;
         pushRef 1 ;; pushRef 2 ;; moveToTop 0) (Demo.state []) with
  | Ok _ w =>
      registry_slot w FREELIST_REF = VNumber (cast_num 2)
      /\ registry_slot w 2 = VNumber (cast_num 1)
      /\ match (pushInt 1 ;; k <- pop2Ref ;; pushRef k ;; pushRef k ;; ret k) w with
         | Ok k w' =>
             k = 2
             /\ stack (m_luastate w') = [VNumber (cast_num 1); VNumber (cast_num 1)]
         | _ => False
         end
  | _ => False
  end.
Proof. vm_compute. repeat split; reflexivity. Qed.

Lemma detach_reattach_witness :
  exists k w1 w2 w3,
    pop2Ref (Demo.state [VString "a"]) = Ok k w1
    /\ 0 < k
    /\ stack (m_luastate w1) = []
    /\ registry_slot w1 k = VString "a"
    /\ registry_slot w1 FREELIST_REF = VNil
    /\ pushRef k w1 = Ok tt w2
    /\ stack (m_luastate w2) = [VString "a"]
    /\ registry_slot w2 k = VNil
    /\ registry_slot w2 FREELIST_REF = VNumber (cast_num k)
    /\ pushRef k w2 = Ok tt w3
    /\ stack (m_luastate w3) = [VNil; VString "a"]
    /\ (hd_error (stack (m_luastate w3)) = Some (VString "a") <-> VNil = VString "a")
    /\ (luaO_rawequalObj VNil (VString "a") = false ->
        forall top, hd_error (stack (m_luastate w3)) = Some top ->
                    luaO_rawequalObj top (VString "a") = false).
Proof.
  apply (@detach_reattach Demo.engine (VString "a") [] Demo.heap None [] (mkTable [] None)).
  - discriminate.
  - vm_compute. reflexivity.
  - apply Z.leb_le. vm_compute. reflexivity.
  - apply Z.ltb_lt. vm_compute. reflexivity.
Defined.

Lemma push_pop_roundtrip_witness :
  int_range 7
  /\ (pushInt 7 ;; popInt) (Demo.state []) = Ok 7 (Demo.state []).
Proof.
  assert (Hr : int_range 7) by (unfold int_range, INT_MIN, INT_MAX; lia).
  split; [exact Hr|].
  exact (proj1 (proj2 (@push_pop_roundtrip Demo.engine (Demo.state []) (cast_num 1) 7 "a" 0 Hr))).
Defined.

Lemma table_roundtrip_witness :
  int_range 7
  /\ (createTable ;; pushString "k" ;; push (HInt 3) ;; setTable ;;
      pushTableValue "k") (Demo.state [VNil])
     = Ok tt (mkWrapper
                (mkLua [VNumber (cast_num 3); VTable 6; VNil]
                   (set_tables
                      (<[6%positive := mkTable [(VString "k", VNumber (cast_num 3))] None]>
                         (tables Demo.heap)) Demo.heap))
                None []).
Proof.
  assert (Hr : int_range 7) by (unfold int_range, INT_MIN, INT_MAX; lia).
  split; [exact Hr|].
  exact (proj1 (proj2 (@table_roundtrip Demo.engine (Demo.state [VNil]) "k" 7 (HInt 3) Hr))).
Defined.

Lemma closeFile_calls_nil_witness :
  luaH_get [(VString "io", VTable 3)] (VString "io") = VTable 3
  /\ luaH_get [(VString "open", VFunction 5); (VString "close", VFunction 6)] (VString "close")
     = VFunction 6
  /\ LuaWrapperCloseFile 4096 (Demo.state [])
     = Ok tt (mkWrapper (mkLua [VString "attempt to call a nil value"] Demo.heap) None
                [call_diagnostic (Some "attempt to call a nil value")
                                 (Some "attempt to call a nil value")]).
Proof.
  split; [reflexivity|]. split; [reflexivity|].
  apply (@closeFile_calls_nil Demo.engine 4096 [] Demo.heap None []
           (mkTable [(VString "io", VTable 3)] None)).
  - vm_compute. reflexivity.
  - reflexivity.
  - reflexivity.
  - vm_compute. reflexivity.
Defined.

(** C9: the same slip in [LuaWrapperOpenFile]: the global [io.open] is
    nil, the call fails, and [popUserdata] raises on the error message;
    the status tag was recorded before. *)
Lemma openFile_calls_nil :
  LuaWrapperOpenFile "out.txt" "w" (Demo.state [])
  = Raise (VString userdata_mismatch)
      (mkWrapper (mkLua [VString "attempt to call a nil value"] Demo.heap) (Some "_OUTPUT")
         [call_diagnostic None (Some "attempt to call a nil value")]).
Proof. vm_compute. reflexivity. Qed.

(** C10, counterexample.  The table at address 5 holds no field [x], but
    its metatable answers a missing field with an error:
    [pushTableValue] raises it. *)
Lemma missing_field_may_raise :
  tables Demo.heap !! 5%positive = Some (mkTable [] (Some 4%positive))
  /\ luaH_get [] (VString "x") = VNil
  /\ pushTableValue "x" (Demo.state [VTable 5])
     = Raise (VString "no such field") (Demo.state [VString "x"; VTable 5]).
Proof. repeat split; vm_compute; reflexivity. Qed.

Lemma missing_field_is_nil_witness :
  pushTableValue "x" (Demo.state [VTable 3])
  = Ok tt (Demo.state [VNil; VTable 3])
  /\ isNil (-1) (Demo.state [VNil; VTable 3]) = Ok 1 (Demo.state [VNil; VTable 3]).
Proof.
  apply (@missing_field_is_nil Demo.engine "x" 3%positive
           (mkTable [(VString "open", VFunction 5); (VString "close", VFunction 6)] None)
           [] Demo.heap None []).
  - vm_compute. reflexivity.
  - reflexivity.
  - reflexivity.
Defined.

(** ** The further properties on the demonstration heap *)

Lemma globals_of_demo :
  tables Demo.heap !! l_gt Demo.heap = Some (mkTable [(VString "io", VTable 3)] None).
Proof. vm_compute. reflexivity. Qed.

Lemma registry_of_demo :
  tables Demo.heap !! l_registry Demo.heap = Some (mkTable [] None).
Proof. vm_compute. reflexivity. Qed.

Lemma io_table_of_demo :
  tables Demo.heap !! 3%positive
  = Some (mkTable [(VString "open", VFunction 5); (VString "close", VFunction 6)] None).
Proof. vm_compute. reflexivity. Qed.

Lemma globals_of_bound_demo :
  tables Demo.bound_heap !! l_gt Demo.bound_heap
  = Some (mkTable [(VString "io.close", VFunction 6); (VString "io.open", VFunction 5);
                   (VString "io", VTable 3)] None).
Proof. vm_compute. reflexivity. Qed.

Lemma moveToTop_sets_depth_witness :
  exists st',
    moveToTop 1 (Demo.state [VBoolean true; VNil]) = Ok tt (mkWrapper (mkLua st' Demo.heap) None [])
    /\ lua_gettop (mkLua st' Demo.heap) = 1
    /\ forall i, 1 <= i <= 1 ->
         index2value (mkLua st' Demo.heap) i
         = if i <=? lua_gettop (mkLua [VBoolean true; VNil] Demo.heap)
           then index2value (mkLua [VBoolean true; VNil] Demo.heap) i else Some VNil.
Proof.
  apply (@moveToTop_sets_depth 1 [VBoolean true; VNil] Demo.heap None []). lia.
Defined.

Lemma setGlobal_getGlobal_witness :
  (setGlobal "answer" ;; getGlobal "answer") (Demo.state [VBoolean true])
  = Ok tt (mkWrapper
             (mkLua [VBoolean true]
                (table_store (l_gt Demo.heap) (mkTable [(VString "io", VTable 3)] None)
                   (VString "answer") (VBoolean true) Demo.heap)) None []).
Proof.
  apply (@setGlobal_getGlobal Demo.engine "answer" (VBoolean true) [] Demo.heap None []
           (mkTable [(VString "io", VTable 3)] None) globals_of_demo eq_refl).
Defined.

Lemma setGlobal_other_name_witness :
  (setGlobal "answer" ;; getGlobal "io") (Demo.state [VBoolean true])
  = Ok tt (mkWrapper
             (mkLua [VTable 3]
                (table_store (l_gt Demo.heap) (mkTable [(VString "io", VTable 3)] None)
                   (VString "answer") (VBoolean true) Demo.heap)) None []).
Proof.
  refine (proj2 (@setGlobal_other_name Demo.engine "answer" "io" (VBoolean true) [] Demo.heap
                   None [] (mkTable [(VString "io", VTable 3)] None)
                   globals_of_demo eq_refl _)).
  discriminate.
Defined.

Lemma doesFuncExist_answer_witness :
  doesFuncExist "io" (Demo.state [VNil]) = Ok 0 (Demo.state []).
Proof.
  apply (@doesFuncExist_answer Demo.engine "io" [VNil] Demo.heap None []
           (mkTable [(VString "io", VTable 3)] None) globals_of_demo eq_refl).
Defined.

Lemma registerFunc_binds_witness :
  registerFunc "hello" 1 (Demo.state [VNil])
  = Ok tt (mkWrapper
             (mkLua [VNil]
                (table_store (l_gt Demo.heap) (mkTable [(VString "io", VTable 3)] None)
                   (VString "hello") (VFunction 1) Demo.heap)) None []).
Proof.
  apply (proj1 (@registerFunc_binds Demo.engine "hello" 1 [VNil] Demo.heap None []
                  (mkTable [(VString "io", VTable 3)] None) globals_of_demo eq_refl)).
Defined.

Lemma setTable_overwrites_witness :
  exists g',
    (pushString "k" ;; push (HInt 1) ;; setTable ;; pushString "k" ;; push (HInt 2) ;; setTable ;;
     pushTableValue "k") (Demo.state [VTable 3])
    = Ok tt (mkWrapper (mkLua [VNumber (cast_num 2); VTable 3] g') None [])
    /\ tables g' !! 3%positive
       = Some (mkTable
                 (node_store
                    (node_store [(VString "open", VFunction 5); (VString "close", VFunction 6)]
                       (VString "k") (VNumber (cast_num 1)))
                    (VString "k") (VNumber (cast_num 2))) None).
Proof.
  apply (@setTable_overwrites Demo.engine "k" (HInt 1) (HInt 2) 3%positive
           (mkTable [(VString "open", VFunction 5); (VString "close", VFunction 6)] None)
           [] Demo.heap None [] io_table_of_demo eq_refl).
Defined.

Lemma setTable_other_key_witness :
  exists g',
    (pushInt 1 ;; push (HString "one") ;; setTable ;; pushTableValue "open")
      (Demo.state [VTable 3])
    = Ok tt (mkWrapper (mkLua [VFunction 5; VTable 3] g') None []).
Proof.
  refine (proj2 (@setTable_other_key Demo.engine "1" "open" 1 (HString "one") 3%positive
                   (mkTable [(VString "open", VFunction 5); (VString "close", VFunction 6)] None)
                   [] Demo.heap None [] io_table_of_demo eq_refl _ _)).
  - discriminate.
  - unfold int_range, INT_MIN, INT_MAX. lia.
Defined.

Lemma setTable_nil_key_witness :
  (pushNil ;; push (HInt 1) ;; setTable) (Demo.state [VTable 3])
  = Raise (VString "table index is nil")
          (Demo.state [VNumber (cast_num 1); VNil; VTable 3]).
Proof.
  apply (@setTable_nil_key Demo.engine (HInt 1) 3%positive
           (mkTable [(VString "open", VFunction 5); (VString "close", VFunction 6)] None)
           [] Demo.heap None [] io_table_of_demo eq_refl).
Defined.

Lemma failed_call_diagnostic_witness :
  callFunction 0 0 (Demo.state [VFunction 3])
  = Ok 0 (mkWrapper (mkLua [VString "no such field"] Demo.heap) None
            [call_diagnostic (Some "no such field") (Some "no such field")]).
Proof.
  apply (proj1 (@failed_call_diagnostic Demo.engine [] (VFunction 3) [] Demo.heap Demo.heap
                  None [] 0 LUA_ERRRUN (VString "no such field") eq_refl) eq_refl).
Defined.

Lemma call_of_non_function_witness :
  exists base' text,
    callFunction (Z.of_nat (length [VNil])) 0 (Demo.state [VNil; VBoolean true; VNil])
    = Ok 0 (mkWrapper
              (mkLua (VString ("attempt to call a "
                               ++ luaT_typename (Some (VBoolean true)) ++ " value")%string
                        :: base') Demo.heap) None (text :: []))
    /\ length base' = length [VNil].
Proof.
  apply (@call_of_non_function Demo.engine [VNil] (VBoolean true) [VNil] Demo.heap None [] 0).
  - discriminate.
  - vm_compute. reflexivity.
Defined.

Lemma references_frame_witness :
  exists k w1,
    pop2Ref (Demo.state [VBoolean true]) = Ok k w1
    /\ stack (m_luastate w1) = []
    /\ registry_slot w1 k = VBoolean true
    /\ forall j, int_range j -> j <> k -> j <> FREELIST_REF ->
         registry_slot w1 j = registry_slot (Demo.state [VBoolean true]) j.
Proof.
  refine (proj1 (@references_frame Demo.engine (VBoolean true) [] Demo.heap None []
                   (mkTable [] None) registry_of_demo _)).
  discriminate.
Defined.

Lemma released_key_is_reused_witness :
  exists w3,
    (pushRef 1 ;; push (HInt 7) ;; pop2Ref) (Demo.state []) = Ok 1 w3
    /\ stack (m_luastate w3) = [registry_slot (Demo.state []) 1]
    /\ registry_slot w3 1 = VNumber (cast_num 7)
    /\ registry_slot w3 FREELIST_REF = registry_slot (Demo.state []) FREELIST_REF.
Proof.
  apply (@released_key_is_reused Demo.engine 1 (HInt 7) [] Demo.heap None []
           (mkTable [] None) registry_of_demo).
  - lia.
  - unfold int_range, INT_MIN, INT_MAX. lia.
  - discriminate.
Defined.

Lemma openFile_when_bound_witness :
  LuaWrapperOpenFile "out.txt" "w" (mkWrapper (mkLua [] Demo.bound_heap) None [])
  = Ok 4096 (mkWrapper (mkLua [] Demo.bound_heap) (Some "_OUTPUT") []).
Proof.
  apply (@openFile_when_bound Demo.engine "out.txt" "w" 5 [VUserdata 4096] [] Demo.bound_heap
           Demo.bound_heap None [] _ (or_introl (or_introl eq_refl))
           globals_of_bound_demo eq_refl eq_refl eq_refl).
Defined.

Lemma closeFile_when_bound_witness :
  LuaWrapperCloseFile 4096 (mkWrapper (mkLua [] Demo.bound_heap) None [])
  = Ok tt (mkWrapper (mkLua [] Demo.bound_heap) None []).
Proof.
  apply (@closeFile_when_bound Demo.engine 4096 6 [] Demo.bound_heap None [] _
           globals_of_bound_demo eq_refl eq_refl).
Defined.

Lemma nil_reference_roundtrip_witness :
  (k <- pop2Ref ;; pushRef k) (Demo.state [VNil]) = Ok tt (Demo.state [VNil]).
Proof.
  apply (proj2 (@nil_reference_roundtrip Demo.engine [] Demo.heap None [] (mkTable [] None)
                  registry_of_demo eq_refl)).
Defined.

Lemma missing_field_metamethod_witness :
  pushTableValue "x" (Demo.state [VTable 5])
  = Raise (VString "no such field") (Demo.state [VString "x"; VTable 5]).
Proof.
  apply (@missing_field_metamethod Demo.engine "x" 5 3 (mkTable [] (Some 4%positive))
           [] Demo.heap None []).
  - vm_compute. reflexivity.
  - vm_compute. reflexivity.
  - reflexivity.
Defined.

Lemma callFunction_multret_witness :
  callFunction 0 LUA_MULTRET (Demo.state [VFunction 1; VNil])
  = Ok 1 (Demo.state [VNumber (cast_num 2); VNumber (cast_num 1); VNil]).
Proof.
  apply (@callFunction_multret Demo.engine [] (VFunction 1) [VNil] Demo.heap Demo.heap None []
           0 [VNumber (cast_num 1); VNumber (cast_num 2)] eq_refl eq_refl).
Defined.

Lemma openFile_mode_witness :
  In "w" output_modes
  /\ match LuaWrapperOpenFile "out.txt" "w" (Demo.state []) with
     | Ok _ w' | Raise _ w' => m_status w' = Some "_OUTPUT"
     | Undefined | Diverge => True
     end.
Proof.
  assert (Hin : In "w" output_modes) by (left; reflexivity).
  split; [exact Hin|].
  exact (proj1 (@openFile_mode Demo.engine "out.txt" "w" (Demo.state [])) Hin).
Defined.
